(** * hyundai_kia_connect_api: the CCS2 translation pass of [Vehicle]

    A shallow embedding of [Vehicle.update_ccs2] (Vehicle.py) and of the
    property setters it calls, with the properties the specification
    states about them.

    Layout:
    - [Py]: the Python values the pass handles and the builtins it calls
      ([bool], [float], [int], [not], [or], [==], [in], dict subscript,
      the [datetime] constructor);
    - [utils], [const]: the two modules Vehicle.py imports from, which
      are not among the sources and are parameters throughout;
    - the attribute store of a [Vehicle] and the monad of a method that
      mutates [self] and may raise;
    - section [Pass]: the property setters and [update_ccs2], statement
      by statement;
    - [Sample]: helpers, tables and documents to run the pass on;
    - section [Properties]: the theorems, for all helpers and tables;
    - section [Runs]: the pass run on the sample documents. *)

From Stdlib Require Import ZArith List String Ascii Bool Lia.
From Stdlib Require Import SpecFloat.
Import ListNotations.
Local Open Scope string_scope.
Local Open Scope Z_scope.

(* ===================================================================== *)
(** ** Python values and builtins                                         *)
(* ===================================================================== *)

Module Py.

(** Python floats are IEEE 754 binary64 numbers. *)
Definition prec : Z := 53.
Definition emax : Z := 1024.

(** [datetime.tzinfo]: the pass only stores the object it is given. *)
Record tzinfo : Type := mk_tzinfo { tzname : string; utcoffset_minutes : Z }.

(** [datetime.datetime], timezone aware. *)
Record datetime : Type := mk_datetime {
  year : Z; month : Z; day : Z;
  hour : Z; minute : Z; second : Z;
  dt_tzinfo : tzinfo
}.

(** Modelled from the spec: const.py is not among the sources; the glossary
    gives the engine types as pure EV, plug-in hybrid, hybrid and internal
    combustion, and Vehicle.py names the member [ENGINE_TYPES.EV]. *)
Inductive ENGINE_TYPES : Type := ICE | EV | PHEV | HEV.

(** The values found in a parsed status document (JSON: null, booleans,
    numbers, strings, arrays, objects) and in the attributes of a
    [Vehicle] (those, and timestamps, timezones and engine types). *)
#[warnings="-register-all"]
Inductive value : Type :=
| VNone
| VBool (b : bool)
| VInt (z : Z)
| VFloat (f : spec_float)
| VStr (s : string)
| VList (l : list value)
| VDict (d : list (string * value))
| VDatetime (t : datetime)
| VTzinfo (tz : tzinfo)
| VEnum (e : ENGINE_TYPES).

(** The exceptions the builtins raise. [OtherError] is for what a helper
    of utils.py may raise besides. *)
Inductive exn : Type :=
| TypeError | ValueError | KeyError | OverflowError | OtherError (name : string).

(** An expression that may raise: [inl e] is the exception, [inr v] the
    value. *)
Definition result (A : Type) : Type := (exn + A)%type.

Definition ebind {A B : Type} (r : result A) (k : A -> result B) : result B :=
  match r with
  | inl e => inl e
  | inr a => k a
  end.

(** *** Truth value testing: [bool(x)], [if x], [not x], [x or y] *)

Definition float_is_zero (f : spec_float) : bool :=
  match f with
  | S754_zero _ => true
  | _ => false
  end.

Definition truthy (v : value) : bool :=
  match v with
  | VNone => false
  | VBool b => b
  | VInt z => negb (z =? 0)
  | VFloat f => negb (float_is_zero f)
  | VStr s => negb (String.eqb s "")
  | VList l => match l with [] => false | _ => true end
  | VDict d => match d with [] => false | _ => true end
  | VDatetime _ => true
  | VTzinfo _ => true
  | VEnum _ => true
  end.

Definition py_bool (v : value) : value := VBool (truthy v).
Definition py_not (v : value) : value := VBool (negb (truthy v)).
(** [x or y] is [x] when [x] is true, else [y]. *)
Definition py_or (x y : value) : value := if truthy x then x else y.

(** *** Numbers *)

(** The integer a float is equal to, when it is one. *)
Definition float_integer (f : spec_float) : option Z :=
  match f with
  | S754_zero _ => Some 0
  | S754_finite s m e =>
      let zm := if s then Z.neg m else Z.pos m in
      if 0 <=? e then Some (zm * 2 ^ e)
      else if (Z.pos m mod 2 ^ (- e)) =? 0 then Some (zm / 2 ^ (- e))
      else None
  | _ => None
  end.

(** The integer a bool, an int or an integral float stands for: Python
    compares and hashes these three alike ([True == 1 == 1.0]). *)
Definition as_integer (v : value) : option Z :=
  match v with
  | VBool b => Some (if b then 1 else 0)
  | VInt z => Some z
  | VFloat f => float_integer f
  | _ => None
  end.

(** [v == z] for an int literal [z]. *)
Definition eq_int (v : value) (z : Z) : bool :=
  match as_integer v with
  | Some n => n =? z
  | None => false
  end.

(** [v in [z1, z2, ...]] for a list of int literals. *)
Definition in_ints (v : value) (zs : list Z) : bool :=
  existsb (eq_int v) zs.

(** [v == s] for a str literal [s]. *)
Definition eq_str (v : value) (s : string) : bool :=
  match v with
  | VStr t => String.eqb t s
  | _ => false
  end.

(** [v == ENGINE_TYPES.m]: an enum member is equal to itself only. *)
Definition eq_engine (v : value) (m : ENGINE_TYPES) : bool :=
  match v, m with
  | VEnum ICE, ICE | VEnum EV, EV | VEnum PHEV, PHEV | VEnum HEV, HEV => true
  | _, _ => false
  end.

Definition is_None (v : value) : bool :=
  match v with
  | VNone => true
  | _ => false
  end.

(** [float(z)] for an int: the nearest binary64, [OverflowError] beyond
    the finite ones. *)
Definition float_of_Z (z : Z) : result spec_float :=
  match binary_normalize prec emax z 0 false with
  | S754_infinity _ => inl OverflowError
  | f => inr f
  end.

(** A float literal [m * 2^e]. *)
Definition float_lit (m e : Z) : spec_float := binary_normalize prec emax m e false.

(** [int(f)] for a float: truncation towards zero. *)
Definition float_trunc (f : spec_float) : result Z :=
  match f with
  | S754_zero _ => inr 0
  | S754_finite s m e =>
      let zm := if s then Z.neg m else Z.pos m in
      if 0 <=? e then inr (zm * 2 ^ e) else inr (Z.quot zm (2 ^ (- e)))
  | S754_infinity _ => inl OverflowError
  | S754_nan => inl ValueError
  end.

(** What [float(s)] and [int(s)] make of a string: the grammar of numeric
    literals is the interpreter's, so the two readers are parameters.
    [None] is a [ValueError]. *)
Class parsers : Type := {
  float_of_string : string -> option spec_float;
  int_of_string : string -> option Z
}.

Section Conversions.
Context {P : parsers}.

(** The builtin [float(v)]. *)
Definition py_float (v : value) : result value :=
  match v with
  | VBool b => inr (VFloat (float_lit (if b then 1 else 0) 0))
  | VInt z => ebind (float_of_Z z) (fun f => inr (VFloat f))
  | VFloat f => inr (VFloat f)
  | VStr s => match float_of_string s with
              | Some f => inr (VFloat f)
              | None => inl ValueError
              end
  | _ => inl TypeError
  end.

(** The builtin [int(v)]. *)
Definition py_int (v : value) : result Z :=
  match v with
  | VBool b => inr (if b then 1 else 0)
  | VInt z => inr z
  | VFloat f => float_trunc f
  | VStr s => match int_of_string s with
              | Some z => inr z
              | None => inl ValueError
              end
  | _ => inl TypeError
  end.
End Conversions.

(** *** Dictionaries keyed by None and ints *)

(** Modelled from the spec: const.py is not among the sources. Its lookup
    tables are "small fixed mappings from small integer state codes"; a
    key [None] stands for an entry under Python's [None], [Some z] for one
    under the int [z]. *)
Definition table : Type := list (option Z * value).

(** The key a value is looked up under: [inl] when it cannot be hashed
    (lists and dicts), [inr None] when it is equal to no key of a
    [table]. *)
Definition table_key (k : value) : result (option (option Z)) :=
  match k with
  | VNone => inr (Some None)
  | VBool _ | VInt _ | VFloat _ =>
      inr (match as_integer k with Some z => Some (Some z) | None => None end)
  | VList _ | VDict _ => inl TypeError
  | _ => inr None
  end.

Definition key_eqb (a b : option Z) : bool :=
  match a, b with
  | None, None => true
  | Some x, Some y => x =? y
  | _, _ => false
  end.

Fixpoint table_find (t : table) (k : option Z) : option value :=
  match t with
  | [] => None
  | (k', v) :: t' => if key_eqb k' k then Some v else table_find t' k
  end.

(** The subscript [t[k]]: a [KeyError] when no entry is under [k]. *)
Definition subscript (t : table) (k : value) : result value :=
  ebind (table_key k) (fun key =>
    match key with
    | Some key' => match table_find t key' with
                   | Some v => inr v
                   | None => inl KeyError
                   end
    | None => inl KeyError
    end).

(** *** [datetime.datetime(year, month, day, hour, minute, second, tzinfo)] *)

Definition is_leap (y : Z) : bool :=
  ((y mod 4 =? 0) && negb (y mod 100 =? 0)) || (y mod 400 =? 0).

Definition days_in_month (y m : Z) : Z :=
  if m =? 2 then (if is_leap y then 29 else 28)
  else if (m =? 4) || (m =? 6) || (m =? 9) || (m =? 11) then 30
  else 31.

Definition between (lo x hi : Z) : bool := (lo <=? x) && (x <=? hi).

Definition c_int (x : Z) : bool := between (- 2 ^ 31) x (2 ^ 31 - 1).

Definition datetime_new (y mo d h mi s : Z) (tz : tzinfo) : result datetime :=
  if negb (forallb c_int [y; mo; d; h; mi; s]) then inl OverflowError
  else if between 1 y 9999 && between 1 mo 12 && between 1 d (days_in_month y mo)
          && between 0 h 23 && between 0 mi 59 && between 0 s 59
       then inr (mk_datetime y mo d h mi s tz)
       else inl ValueError.

End Py.
Import Py.

(* ===================================================================== *)
(** ** The modules Vehicle.py imports from                                *)
(* ===================================================================== *)

(** [from .utils import get_child_value, get_float, parse_datetime].
    utils.py is not among the sources, so the three helpers are the
    fields of an interface and every theorem holds for all of them.
    Modelled from the spec: [get_child_value document path] "returns the
    value at that path or a sentinel absence marker", "no exception, no
    partial value"; the marker is [None] (Vehicle.py tests
    [timestamp is not None]). Nothing is known of the other two, so they
    may raise. *)
Class utils : Type := {
  get_child_value : value -> string -> value;
  get_float : value -> result value;
  parse_datetime : value -> tzinfo -> result value
}.

(** [from .const import *]: the three lookup tables Vehicle.py
    subscripts. const.py is not among the sources, so the tables are
    parameters as well. *)
Class const : Type := {
  DISTANCE_UNITS : table;
  TEMPERATURE_UNITS : table;
  SEAT_STATUS : table
}.

(* ===================================================================== *)
(** ** The instance and the methods that mutate it                        *)
(* ===================================================================== *)

(** A [Vehicle] instance is its attribute store: every field of the
    dataclass has a default, so every attribute the pass reads is bound. *)
Definition Vehicle : Type := string -> value.

Definition getattr (self : Vehicle) (a : string) : value := self a.

Definition setattr (self : Vehicle) (a : string) (v : value) : Vehicle :=
  fun a' => if String.eqb a a' then v else self a'.

(** The field defaults of the dataclass: [None] but for [enabled],
    [timezone] and [daily_stats]. *)
Definition utc : tzinfo := mk_tzinfo "UTC" 0.

Definition Vehicle_default : Vehicle :=
  fun a =>
    if String.eqb a "enabled" then VBool true
    else if String.eqb a "timezone" then VTzinfo utc
    else if String.eqb a "daily_stats" then VList []
    else VNone.

(** Two instances hold the same data when all their attributes agree. *)
Definition same_snapshot (s1 s2 : Vehicle) : Prop :=
  forall a, getattr s1 a = getattr s2 a.

(** A method body: it runs on [self], leaves [self] as mutated so far and
    either returns or raises. An exception does not undo the assignments
    made before it. *)
Definition M (A : Type) : Type := Vehicle -> Vehicle * result A.

Definition ret {A : Type} (x : A) : M A := fun self => (self, inr x).

Definition bind {A B : Type} (c : M A) (k : A -> M B) : M B :=
  fun self =>
    let (self', r) := c self in
    match r with
    | inl e => (self', inl e)
    | inr x => k x self'
    end.

(** Evaluating an expression that does not touch [self]. *)
Definition lift {A : Type} (r : result A) : M A := fun self => (self, r).

(** [self.a] and [self.a = v] for a plain attribute. *)
Definition read (a : string) : M value := fun self => (self, inr (getattr self a)).
Definition write (a : string) (v : value) : M unit :=
  fun self => (setattr self a v, inr tt).

Declare Scope py_scope.
Delimit Scope py_scope with py.
Notation "x <- c ;; k" := (bind c (fun x => k))
  (at level 61, c at next level, right associativity) : py_scope.
Notation "c ;; k" := (bind c (fun _ => k))
  (at level 61, right associativity) : py_scope.
Local Open Scope py_scope.

(** [self.a = E] where evaluating [E] may raise, and [self.p = E] for a
    property [p] with the given setter. *)
Definition assign (a : string) (E : result value) : M unit :=
  v <- lift E ;; write a v.

Definition call {A : Type} (setter : A -> M unit) (E : result A) : M unit :=
  x <- lift E ;; setter x.

(** A tuple display [(a, b)]: [a] is evaluated first. *)
Definition tuple2 {A B : Type} (ra : result A) (rb : result B) : result (A * B) :=
  ebind ra (fun a => ebind rb (fun b => inr (a, b))).

(** The statements of a body, one after the other, up to the first that
    raises. *)
Fixpoint seq_all (l : list (M unit)) : M unit :=
  match l with
  | [] => ret tt
  | c :: l' => c ;; seq_all l'
  end.

(** The state a run leaves and how it ended. *)
Definition state_of {A : Type} (r : Vehicle * result A) : Vehicle := fst r.
Definition returns {A : Type} (r : Vehicle * result A) : Prop :=
  exists x, snd r = inr x.
Definition raises {A : Type} (r : Vehicle * result A) : Prop :=
  exists e, snd r = inl e.

(* ===================================================================== *)
(** ** Vehicle.py                                                          *)
(* ===================================================================== *)

Section Pass.
Context {U : utils} {C : const} {P : parsers}.

(** *** Properties (Vehicle.py, lines 240-425)

    A value with its unit is three attributes, [_p] and [_p_value] for
    the value and [_p_unit] for the unit; the setter takes the pair
    [(value, unit)]. *)

Definition total_driving_range : M value := read "_total_driving_range".
Definition total_driving_range_unit : M value := read "_total_driving_range_unit".

Definition total_driving_range_setter (value : value * value) : M unit :=
  write "_total_driving_range_value" (fst value) ;;
  write "_total_driving_range_unit" (snd value) ;;
  write "_total_driving_range" (fst value).

Definition next_service_distance_setter (value : value * value) : M unit :=
  write "_next_service_distance_value" (fst value) ;;
  write "_next_service_distance_unit" (snd value) ;;
  write "_next_service_distance" (fst value).

Definition last_service_distance_setter (value : value * value) : M unit :=
  write "_last_service_distance_value" (fst value) ;;
  write "_last_service_distance_unit" (snd value) ;;
  write "_last_service_distance" (fst value).

(** [value] is the triple [(latitude, longitude, time)]. *)
Definition location_setter (value : value * value * value) : M unit :=
  write "_location_latitude" (fst (fst value)) ;;
  write "_location_longitude" (snd (fst value)) ;;
  write "_location_last_set_time" (snd value).

Definition odometer_setter (value : value * value) : M unit :=
  float_value <- lift (get_float (fst value)) ;;
  write "_odometer_value" float_value ;;
  write "_odometer_unit" (snd value) ;;
  write "_odometer" float_value.

Definition air_temperature_setter (value : value * value) : M unit :=
  write "_air_temperature_value" (fst value) ;;
  write "_air_temperature_unit" (snd value) ;;
  write "_air_temperature" (fst value).

Definition ev_driving_range_setter (value : value * value) : M unit :=
  write "_ev_driving_range_value" (fst value) ;;
  write "_ev_driving_range_unit" (snd value) ;;
  write "_ev_driving_range" (fst value).

Definition ev_estimated_current_charge_duration_setter (value : value * value) : M unit :=
  write "_ev_estimated_current_charge_duration_value" (fst value) ;;
  write "_ev_estimated_current_charge_duration_unit" (snd value) ;;
  write "_ev_estimated_current_charge_duration" (fst value).

Definition ev_estimated_fast_charge_duration_setter (value : value * value) : M unit :=
  write "_ev_estimated_fast_charge_duration_value" (fst value) ;;
  write "_ev_estimated_fast_charge_duration_unit" (snd value) ;;
  write "_ev_estimated_fast_charge_duration" (fst value).

Definition ev_estimated_portable_charge_duration_setter (value : value * value) : M unit :=
  write "_ev_estimated_portable_charge_duration_value" (fst value) ;;
  write "_ev_estimated_portable_charge_duration_unit" (snd value) ;;
  write "_ev_estimated_portable_charge_duration" (fst value).

Definition ev_estimated_station_charge_duration_setter (value : value * value) : M unit :=
  write "_ev_estimated_station_charge_duration_value" (fst value) ;;
  write "_ev_estimated_station_charge_duration_unit" (snd value) ;;
  write "_ev_estimated_station_charge_duration" (fst value).

Definition ev_target_range_charge_AC_setter (value : value * value) : M unit :=
  write "_ev_target_range_charge_AC_value" (fst value) ;;
  write "_ev_target_range_charge_AC_unit" (snd value) ;;
  write "_ev_target_range_charge_AC" (fst value).

Definition ev_target_range_charge_DC_setter (value : value * value) : M unit :=
  write "_ev_target_range_charge_DC_value" (fst value) ;;
  write "_ev_target_range_charge_DC_unit" (snd value) ;;
  write "_ev_target_range_charge_DC" (fst value).

Definition fuel_driving_range_setter (value : value * value) : M unit :=
  write "_fuel_driving_range_value" (fst value) ;;
  write "_fuel_driving_range_unit" (snd value) ;;
  write "_fuel_driving_range" (fst value).

(** *** [update_ccs2] (lines 427-694) *)

(** The pattern of lines 453-469 and 560-564:
    [if code in [0, 2]: self.a = False / elif code == 1: self.a = True]. *)
Definition tri_state (a : string) (code : value) : M unit :=
  if in_ints code [0; 2] then write a (VBool false)
  else if eq_int code 1 then write a (VBool true)
  else ret tt.

(** Lines 505-510. *)
Definition stmt_is_locked : M unit :=
  fl <- read "front_left_door_is_open" ;;
  fr <- read "front_right_door_is_open" ;;
  bl <- read "back_left_door_is_open" ;;
  br <- read "back_right_door_is_open" ;;
  write "is_locked" (py_not (py_or (py_or (py_or fl fr) bl) br)).

(** Lines 581-586. *)
Definition stmt_ev_driving_range : M unit :=
  engine_type <- read "engine_type" ;;
  if eq_engine engine_type EV then
    r <- total_driving_range ;;
    u <- total_driving_range_unit ;;
    ev_driving_range_setter (r, u)
  else ret tt.

(** Lines 675-686: the time of the fix, 2000-01-01 00:00:00 unless the
    document gives one. *)
Definition location_last_updated_at (timezone : tzinfo) (state : value) : result value :=
  let timestamp := get_child_value state "Location.TimeStamp" in
  if negb (is_None timestamp) then
    ebind (py_int (get_child_value timestamp "Year")) (fun year =>
    ebind (py_int (get_child_value timestamp "Mon")) (fun month =>
    ebind (py_int (get_child_value timestamp "Day")) (fun day =>
    ebind (py_int (get_child_value timestamp "Hour")) (fun hour =>
    ebind (py_int (get_child_value timestamp "Min")) (fun minute =>
    ebind (py_int (get_child_value timestamp "Sec")) (fun second =>
    ebind (datetime_new year month day hour minute second timezone) (fun t =>
    inr (VDatetime t))))))))
  else inr (VDatetime (mk_datetime 2000 1 1 0 0 0 timezone)).

(** Lines 674-692. *)
Definition stmt_location (timezone : tzinfo) (state : value) : M unit :=
  if truthy (get_child_value state "Location.GeoCoord.Latitude") then
    call location_setter
      (ebind (location_last_updated_at timezone state) (fun t =>
       inr (get_child_value state "Location.GeoCoord.Latitude",
            get_child_value state "Location.GeoCoord.Longitude",
            t)))
  else ret tt.

(** The statements of [update_ccs2] in source order. [now] is what
    [datetime.datetime.now] answers during the call. *)
Definition update_ccs2_body (now : tzinfo -> datetime) (timezone : tzinfo) (state : value)
  : list (M unit) :=
  let get := get_child_value state in
  [ (* 428-433 *)
    (if truthy (get "Date")
     then assign "last_updated_at" (parse_datetime (get "Date") timezone)
     else assign "last_updated_at" (inr (VDatetime (now timezone))));
    (* 435-438 *)
    call odometer_setter
      (tuple2 (inr (get "Drivetrain.Odometer")) (subscript DISTANCE_UNITS (VInt 1)));
    (* 439-443 *)
    assign "car_battery_percentage" (inr (get "Electronics.Battery.Level"));
    assign "engine_is_running" (inr (get "DrivingReady"));
    (* 445-451 *)
    (let air_temp := get "Cabin.HVAC.Row1.Driver.Temperature.Value" in
     if negb (eq_str air_temp "OFF")
     then call air_temperature_setter
            (tuple2 (inr air_temp) (subscript TEMPERATURE_UNITS (VInt 1)))
     else ret tt);
    (* 453-469 *)
    tri_state "defrost_is_on" (get "Body.Windshield.Front.Defog.State");
    tri_state "steering_wheel_heater_is_on" (get "Cabin.SteeringWheel.Heat.State");
    tri_state "back_window_heater_is_on" (get "Body.Windshield.Rear.Defog.State");
    (* 473-487 *)
    assign "front_left_seat_status"
      (subscript SEAT_STATUS (get "Cabin.Seat.Row1.Driver.Climate.State"));
    assign "front_right_seat_status"
      (subscript SEAT_STATUS (get "Cabin.Seat.Row1.Passenger.Climate.State"));
    assign "rear_left_seat_status"
      (subscript SEAT_STATUS (get "Cabin.Seat.Row2.Left.Climate.State"));
    assign "rear_right_seat_status"
      (subscript SEAT_STATUS (get "Cabin.Seat.Row2.Right.Climate.State"));
    (* 491-502 *)
    assign "front_left_door_is_open" (inr (get "Cabin.Door.Row1.Driver.Open"));
    assign "front_right_door_is_open" (inr (get "Cabin.Door.Row1.Passenger.Open"));
    assign "back_left_door_is_open" (inr (get "Cabin.Door.Row2.Left.Open"));
    assign "back_right_door_is_open" (inr (get "Cabin.Door.Row2.Right.Open"));
    (* 505-510 *)
    stmt_is_locked;
    (* 512-524 *)
    assign "hood_is_open" (inr (get "Body.Hood.Open"));
    assign "front_left_window_is_open" (inr (get "Cabin.Window.Row1.Driver.Open"));
    assign "front_right_window_is_open" (inr (get "Cabin.Window.Row1.Passenger.Open"));
    assign "back_left_window_is_open" (inr (get "Cabin.Window.Row2.Left.Open"));
    assign "back_right_window_is_open" (inr (get "Cabin.Window.Row2.Right.Open"));
    (* 525-540 *)
    assign "tire_pressure_rear_left_warning_is_on"
      (inr (py_bool (get "Chassis.Axle.Row2.Left.Tire.PressureLow")));
    assign "tire_pressure_front_left_warning_is_on"
      (inr (py_bool (get "Chassis.Axle.Row1.Left.Tire.PressureLow")));
    assign "tire_pressure_front_right_warning_is_on"
      (inr (py_bool (get "Chassis.Axle.Row1.Right.Tire.PressureLow")));
    assign "tire_pressure_rear_right_warning_is_on"
      (inr (py_bool (get "Chassis.Axle.Row2.Right.Tire.PressureLow")));
    assign "tire_pressure_all_warning_is_on"
      (inr (py_bool (get "Chassis.Axle.Tire.PressureLow")));
    assign "trunk_is_open" (inr (get "Body.Trunk.Open"));
    (* 542-553 *)
    assign "ev_battery_percentage" (inr (get "Green.BatteryManagement.BatteryRemain.Ratio"));
    assign "ev_battery_remain" (inr (get "Green.BatteryManagement.BatteryRemain.Value"));
    assign "ev_battery_capacity" (inr (get "Green.BatteryManagement.BatteryCapacity.Value"));
    assign "ev_battery_soh_percentage" (inr (get "Green.BatteryManagement.SoH.Ratio"));
    (* 554-559 *)
    assign "ev_battery_is_plugged_in"
      (inr (get "Green.ChargingInformation.ElectricCurrentLevel.State"));
    assign "ev_battery_is_plugged_in"
      (inr (get "Green.ChargingInformation.ConnectorFastening.State"));
    (* 560-564 *)
    tri_state "ev_charge_port_door_is_open" (get "Green.ChargingDoor.State");
    (* 566-579 *)
    call total_driving_range_setter
      (tuple2 (py_float (get "Drivetrain.FuelSystem.DTE.Total"))
              (subscript DISTANCE_UNITS (get "Drivetrain.FuelSystem.DTE.Unit")));
    (* 581-586 *)
    stmt_ev_driving_range;
    (* 589-591 *)
    assign "washer_fluid_warning_is_on"
      (inr (get "Body.Windshield.Front.WasherFluid.LevelLow"));
    (* 593-608 *)
    call ev_estimated_current_charge_duration_setter
      (inr (get "Green.ChargingInformation.Charging.RemainTime", VStr "m"));
    call ev_estimated_fast_charge_duration_setter
      (inr (get "Green.ChargingInformation.EstimatedTime.Standard", VStr "m"));
    call ev_estimated_portable_charge_duration_setter
      (inr (get "Green.ChargingInformation.EstimatedTime.ICCB", VStr "m"));
    call ev_estimated_station_charge_duration_setter
      (inr (get "Green.ChargingInformation.EstimatedTime.Quick", VStr "m"));
    (* 609-617 *)
    assign "ev_charge_limits_ac" (inr (get "Green.ChargingInformation.TargetSoC.Standard"));
    assign "ev_charge_limits_dc" (inr (get "Green.ChargingInformation.TargetSoC.Quick"));
    assign "ev_v2l_discharge_limit"
      (inr (get "Green.Electric.SmartGrid.VehicleToLoad.DischargeLimitation.SoC"));
    (* 618-641 *)
    call ev_target_range_charge_AC_setter
      (tuple2 (inr (get "Green.ChargingInformation.DTE.TargetSoC.Standard"))
              (subscript DISTANCE_UNITS (get "Drivetrain.FuelSystem.DTE.Unit")));
    call ev_target_range_charge_DC_setter
      (tuple2 (inr (get "Green.ChargingInformation.DTE.TargetSoC.Quick"))
              (subscript DISTANCE_UNITS (get "Drivetrain.FuelSystem.DTE.Unit")));
    (* 642-648 *)
    assign "ev_first_departure_enabled"
      (inr (py_bool (get "Green.Reservation.Departure.Schedule1.Enable")));
    assign "ev_second_departure_enabled"
      (inr (py_bool (get "Green.Reservation.Departure.Schedule2.Enable")));
    (* 656-661 *)
    assign "washer_fluid_warning_is_on"
      (inr (get "Body.Windshield.Front.WasherFluid.LevelLow"));
    assign "brake_fluid_warning_is_on" (inr (get "Chassis.Brake.Fluid.Warning"));
    (* 663-672 *)
    assign "fuel_level" (inr (get "Drivetrain.FuelSystem.FuelLevel"));
    assign "fuel_level_is_low" (inr (get "Drivetrain.FuelSystem.LowFuelWarning"));
    assign "air_control_is_on" (inr (get "Cabin.HVAC.Row1.Driver.Blower.SpeedLevel"));
    assign "smart_key_battery_warning_is_on"
      (inr (py_bool (get "Electronics.FOB.LowBattery")));
    (* 674-692 *)
    stmt_location timezone state;
    (* 694 *)
    assign "data" (inr state)
  ].

Definition update_ccs2 (now : tzinfo -> datetime) (timezone : tzinfo) (state : value)
  : M unit :=
  seq_all (update_ccs2_body now timezone state).

End Pass.

(* ===================================================================== *)
(** ** What the theorems speak of                                         *)
(* ===================================================================== *)

(** The fields of lines 453-469 and 560-564, each with its source path. *)
Definition tri_state_fields : list (string * string) :=
  [ ("Body.Windshield.Front.Defog.State", "defrost_is_on");
    ("Cabin.SteeringWheel.Heat.State", "steering_wheel_heater_is_on");
    ("Body.Windshield.Rear.Defog.State", "back_window_heater_is_on");
    ("Green.ChargingDoor.State", "ev_charge_port_door_is_open") ].


(** The fields assigned the resolver's answer as it is. *)
Definition pass_through_fields : list (string * string) :=
  [ ("Electronics.Battery.Level", "car_battery_percentage");
    ("DrivingReady", "engine_is_running");
    ("Cabin.Door.Row1.Driver.Open", "front_left_door_is_open");
    ("Cabin.Door.Row1.Passenger.Open", "front_right_door_is_open");
    ("Cabin.Door.Row2.Left.Open", "back_left_door_is_open");
    ("Cabin.Door.Row2.Right.Open", "back_right_door_is_open");
    ("Body.Hood.Open", "hood_is_open");
    ("Cabin.Window.Row1.Driver.Open", "front_left_window_is_open");
    ("Cabin.Window.Row1.Passenger.Open", "front_right_window_is_open");
    ("Cabin.Window.Row2.Left.Open", "back_left_window_is_open");
    ("Cabin.Window.Row2.Right.Open", "back_right_window_is_open");
    ("Body.Trunk.Open", "trunk_is_open");
    ("Green.BatteryManagement.BatteryRemain.Ratio", "ev_battery_percentage");
    ("Green.BatteryManagement.BatteryRemain.Value", "ev_battery_remain");
    ("Green.BatteryManagement.BatteryCapacity.Value", "ev_battery_capacity");
    ("Green.BatteryManagement.SoH.Ratio", "ev_battery_soh_percentage");
    ("Green.ChargingInformation.ConnectorFastening.State", "ev_battery_is_plugged_in");
    ("Body.Windshield.Front.WasherFluid.LevelLow", "washer_fluid_warning_is_on");
    ("Green.ChargingInformation.TargetSoC.Standard", "ev_charge_limits_ac");
    ("Green.ChargingInformation.TargetSoC.Quick", "ev_charge_limits_dc");
    ("Green.Electric.SmartGrid.VehicleToLoad.DischargeLimitation.SoC",
     "ev_v2l_discharge_limit");
    ("Chassis.Brake.Fluid.Warning", "brake_fluid_warning_is_on");
    ("Drivetrain.FuelSystem.FuelLevel", "fuel_level");
    ("Drivetrain.FuelSystem.LowFuelWarning", "fuel_level_is_low");
    ("Cabin.HVAC.Row1.Driver.Blower.SpeedLevel", "air_control_is_on") ].

(** The fields assigned [bool(...)] of the resolver's answer. *)
Definition coerced_fields : list (string * string) :=
  [ ("Chassis.Axle.Row2.Left.Tire.PressureLow", "tire_pressure_rear_left_warning_is_on");
    ("Chassis.Axle.Row1.Left.Tire.PressureLow", "tire_pressure_front_left_warning_is_on");
    ("Chassis.Axle.Row1.Right.Tire.PressureLow", "tire_pressure_front_right_warning_is_on");
    ("Chassis.Axle.Row2.Right.Tire.PressureLow", "tire_pressure_rear_right_warning_is_on");
    ("Chassis.Axle.Tire.PressureLow", "tire_pressure_all_warning_is_on");
    ("Green.Reservation.Departure.Schedule1.Enable", "ev_first_departure_enabled");
    ("Green.Reservation.Departure.Schedule2.Enable", "ev_second_departure_enabled");
    ("Electronics.FOB.LowBattery", "smart_key_battery_warning_is_on") ].

(** The location triple, as the setter of lines 304-308 stores it. *)
Definition location_of (self : Vehicle) : value * value * value :=
  (getattr self "_location_latitude",
   getattr self "_location_longitude",
   getattr self "_location_last_set_time").

(** A value with its unit: [(_p_value, _p_unit, _p)]. *)
Definition composite_of (self : Vehicle) (p : string) : value * value * value :=
  (getattr self (p ++ "_value"), getattr self (p ++ "_unit"), getattr self p).

(** The properties that pair a value with a unit, each with its setter. *)
Definition composites {U : utils} : list (string * (value * value -> M unit)) :=
  [ ("_odometer", odometer_setter);
    ("_total_driving_range", total_driving_range_setter);
    ("_air_temperature", air_temperature_setter);
    ("_ev_driving_range", ev_driving_range_setter);
    ("_ev_estimated_current_charge_duration", ev_estimated_current_charge_duration_setter);
    ("_ev_estimated_fast_charge_duration", ev_estimated_fast_charge_duration_setter);
    ("_ev_estimated_portable_charge_duration",
     ev_estimated_portable_charge_duration_setter);
    ("_ev_estimated_station_charge_duration", ev_estimated_station_charge_duration_setter);
    ("_ev_target_range_charge_AC", ev_target_range_charge_AC_setter);
    ("_ev_target_range_charge_DC", ev_target_range_charge_DC_setter);
    ("_fuel_driving_range", fuel_driving_range_setter);
    ("_next_service_distance", next_service_distance_setter);
    ("_last_service_distance", last_service_distance_setter) ].

(** What a setter stores as the value: the odometer's goes through
    [get_float] (line 320), the others store the first component. *)
Definition stored_value {U : utils} (p : string) (v : value) : result value :=
  if String.eqb p "_odometer" then get_float v else inr v.

(** The assignments a run has made, oldest first, and the store they
    leave. *)
Definition writes : Type := list (string * value).

Fixpoint apply_writes (w : writes) (self : Vehicle) : Vehicle :=
  match w with
  | [] => self
  | (a, v) :: w' => apply_writes w' (setattr self a v)
  end.

Fixpoint last_write (a : string) (w : writes) : option value :=
  match w with
  | [] => None
  | (a', v) :: w' =>
      match last_write a w' with
      | Some x => Some x
      | None => if String.eqb a' a then Some v else None
      end
  end.

(** [keeps a c]: the statement [c] leaves attribute [a] as it was. *)
Definition keeps (a : string) (c : M unit) : Prop :=
  forall self, getattr (state_of (c self)) a = getattr self a.

(** [determined c]: what [c] assigns and how it ends depend on [self]
    through the engine type at most, which [c] does not assign. *)
Definition determined (c : M unit) : Prop :=
  exists g : value -> writes * result unit,
    (forall e, last_write "engine_type" (fst (g e)) = None) /\
    forall self,
      c self = (apply_writes (fst (g (getattr self "engine_type"))) self,
                snd (g (getattr self "engine_type"))).

(** [assigns_only names c]: the statement [c] assigns no attribute
    outside [names]. *)
Definition assigns_only (names : list string) (c : M unit) : Prop :=
  forall self a,
    existsb (fun n => String.eqb n a) names = false ->
    getattr (state_of (c self)) a = getattr self a.

(** The attributes each statement of [update_ccs2_body] may assign, in
    the order of the statements. *)
Definition update_ccs2_assigns : list (list string) :=
  [ ["last_updated_at"];
    ["_odometer_value"; "_odometer_unit"; "_odometer"];
    ["car_battery_percentage"];
    ["engine_is_running"];
    ["_air_temperature_value"; "_air_temperature_unit"; "_air_temperature"];
    ["defrost_is_on"];
    ["steering_wheel_heater_is_on"];
    ["back_window_heater_is_on"];
    ["front_left_seat_status"];
    ["front_right_seat_status"];
    ["rear_left_seat_status"];
    ["rear_right_seat_status"];
    ["front_left_door_is_open"];
    ["front_right_door_is_open"];
    ["back_left_door_is_open"];
    ["back_right_door_is_open"];
    ["is_locked"];
    ["hood_is_open"];
    ["front_left_window_is_open"];
    ["front_right_window_is_open"];
    ["back_left_window_is_open"];
    ["back_right_window_is_open"];
    ["tire_pressure_rear_left_warning_is_on"];
    ["tire_pressure_front_left_warning_is_on"];
    ["tire_pressure_front_right_warning_is_on"];
    ["tire_pressure_rear_right_warning_is_on"];
    ["tire_pressure_all_warning_is_on"];
    ["trunk_is_open"];
    ["ev_battery_percentage"];
    ["ev_battery_remain"];
    ["ev_battery_capacity"];
    ["ev_battery_soh_percentage"];
    ["ev_battery_is_plugged_in"];
    ["ev_battery_is_plugged_in"];
    ["ev_charge_port_door_is_open"];
    ["_total_driving_range_value"; "_total_driving_range_unit"; "_total_driving_range"];
    ["_ev_driving_range_value"; "_ev_driving_range_unit"; "_ev_driving_range"];
    ["washer_fluid_warning_is_on"];
    ["_ev_estimated_current_charge_duration_value";
     "_ev_estimated_current_charge_duration_unit";
     "_ev_estimated_current_charge_duration"];
    ["_ev_estimated_fast_charge_duration_value";
     "_ev_estimated_fast_charge_duration_unit";
     "_ev_estimated_fast_charge_duration"];
    ["_ev_estimated_portable_charge_duration_value";
     "_ev_estimated_portable_charge_duration_unit";
     "_ev_estimated_portable_charge_duration"];
    ["_ev_estimated_station_charge_duration_value";
     "_ev_estimated_station_charge_duration_unit";
     "_ev_estimated_station_charge_duration"];
    ["ev_charge_limits_ac"];
    ["ev_charge_limits_dc"];
    ["ev_v2l_discharge_limit"];
    ["_ev_target_range_charge_AC_value"; "_ev_target_range_charge_AC_unit";
     "_ev_target_range_charge_AC"];
    ["_ev_target_range_charge_DC_value"; "_ev_target_range_charge_DC_unit";
     "_ev_target_range_charge_DC"];
    ["ev_first_departure_enabled"];
    ["ev_second_departure_enabled"];
    ["washer_fluid_warning_is_on"];
    ["brake_fluid_warning_is_on"];
    ["fuel_level"];
    ["fuel_level_is_low"];
    ["air_control_is_on"];
    ["smart_key_battery_warning_is_on"];
    ["_location_latitude"; "_location_longitude"; "_location_last_set_time"];
    ["data"] ].

(** No list of [names] holds the attribute [a]. *)
Definition unassigned (a : string) (names : list (list string)) : bool :=
  forallb (fun ns => negb (existsb (fun n => String.eqb n a) ns)) names.

(** The place of the statement that assigns [a], counted from 0; the
    last one when two statements assign [a]. *)
Fixpoint last_index (a : string) (names : list (list string)) (i : nat) : option nat :=
  match names with
  | [] => None
  | ns :: names' =>
      match last_index a names' (S i) with
      | Some j => Some j
      | None => if existsb (fun n => String.eqb n a) ns then Some i else None
      end
  end.

Definition statement_index (a : string) : nat :=
  match last_index a update_ccs2_assigns 0 with
  | Some i => i
  | None => List.length update_ccs2_assigns
  end.

(** [gets_to a now timezone state self]: the run gets as far as the
    statement that assigns [a]: the statements before it return. Every
    run that returns does, and so does one that raises later. *)
Definition gets_to {U : utils} {C : const} {P : parsers}
    (a : string) (now : tzinfo -> datetime) (timezone : tzinfo) (state : value)
    (self : Vehicle) : Prop :=
  returns (seq_all (firstn (statement_index a) (update_ccs2_body now timezone state)) self).


(* ===================================================================== *)
(** ** The rest of the class (Vehicle.py, lines 68-425)                   *)
(* ===================================================================== *)

(** The fields of the dataclass (lines 70-238), in the order of the
    source. *)
Definition Vehicle_fields : list string :=
  [ "id"; "name"; "model"; "registration_date"; "year"; "VIN"; "key";
    "ccu_ccs2_protocol_support"; "enabled";
    "_total_driving_range"; "_total_driving_range_value"; "_total_driving_range_unit";
    "_odometer"; "_odometer_value"; "_odometer_unit";
    "_geocode_address"; "_geocode_name";
    "car_battery_percentage"; "engine_is_running"; "last_updated_at"; "timezone";
    "dtc_count"; "dtc_descriptions";
    "smart_key_battery_warning_is_on"; "washer_fluid_warning_is_on";
    "brake_fluid_warning_is_on";
    "_air_temperature"; "_air_temperature_value"; "_air_temperature_unit";
    "air_control_is_on"; "defrost_is_on"; "steering_wheel_heater_is_on";
    "back_window_heater_is_on"; "side_mirror_heater_is_on";
    "front_left_seat_status"; "front_right_seat_status";
    "rear_left_seat_status"; "rear_right_seat_status";
    "is_locked"; "front_left_door_is_open"; "front_right_door_is_open";
    "back_left_door_is_open"; "back_right_door_is_open"; "trunk_is_open"; "hood_is_open";
    "front_left_window_is_open"; "front_right_window_is_open";
    "back_left_window_is_open"; "back_right_window_is_open";
    "tire_pressure_all_warning_is_on"; "tire_pressure_rear_left_warning_is_on";
    "tire_pressure_front_left_warning_is_on"; "tire_pressure_front_right_warning_is_on";
    "tire_pressure_rear_right_warning_is_on";
    "_next_service_distance"; "_next_service_distance_value";
    "_next_service_distance_unit";
    "_last_service_distance"; "_last_service_distance_value";
    "_last_service_distance_unit";
    "_location_latitude"; "_location_longitude"; "_location_last_set_time";
    "ev_charge_port_door_is_open";
    "ev_charge_limits_dc"; "ev_charge_limits_ac"; "ev_v2l_discharge_limit";
    "total_power_consumed"; "total_power_regenerated"; "power_consumption_30d";
    "daily_stats"; "month_trip_info"; "day_trip_info";
    "ev_battery_percentage"; "ev_battery_soh_percentage"; "ev_battery_remain";
    "ev_battery_capacity"; "ev_battery_is_charging"; "ev_battery_is_plugged_in";
    "_ev_driving_range"; "_ev_driving_range_value"; "_ev_driving_range_unit";
    "_ev_estimated_current_charge_duration";
    "_ev_estimated_current_charge_duration_value";
    "_ev_estimated_current_charge_duration_unit";
    "_ev_estimated_fast_charge_duration";
    "_ev_estimated_fast_charge_duration_value";
    "_ev_estimated_fast_charge_duration_unit";
    "_ev_estimated_portable_charge_duration";
    "_ev_estimated_portable_charge_duration_value";
    "_ev_estimated_portable_charge_duration_unit";
    "_ev_estimated_station_charge_duration";
    "_ev_estimated_station_charge_duration_value";
    "_ev_estimated_station_charge_duration_unit";
    "_ev_target_range_charge_AC"; "_ev_target_range_charge_AC_value";
    "_ev_target_range_charge_AC_unit";
    "_ev_target_range_charge_DC"; "_ev_target_range_charge_DC_value";
    "_ev_target_range_charge_DC_unit";
    "ev_first_departure_enabled"; "ev_second_departure_enabled";
    "ev_first_departure_days"; "ev_second_departure_days";
    "ev_first_departure_time"; "ev_second_departure_time";
    "ev_off_peak_start_time"; "ev_off_peak_end_time"; "ev_off_peak_charge_only_enabled";
    "_fuel_driving_range"; "_fuel_driving_range_value"; "_fuel_driving_range_unit";
    "fuel_level"; "fuel_level_is_low";
    "engine_type";
    "data" ].

(** The fields no statement of [update_ccs2] assigns. *)
Definition never_assigned : list string :=
  [ "id"; "name"; "model"; "registration_date"; "year"; "VIN"; "key";
    "ccu_ccs2_protocol_support"; "enabled";
    "_geocode_address"; "_geocode_name";
    "timezone"; "dtc_count"; "dtc_descriptions";
    "side_mirror_heater_is_on";
    "_next_service_distance"; "_next_service_distance_value";
    "_next_service_distance_unit";
    "_last_service_distance"; "_last_service_distance_value";
    "_last_service_distance_unit";
    "total_power_consumed"; "total_power_regenerated"; "power_consumption_30d";
    "daily_stats"; "month_trip_info"; "day_trip_info";
    "ev_battery_is_charging";
    "ev_first_departure_days"; "ev_second_departure_days";
    "ev_first_departure_time"; "ev_second_departure_time";
    "ev_off_peak_start_time"; "ev_off_peak_end_time"; "ev_off_peak_charge_only_enabled";
    "_fuel_driving_range"; "_fuel_driving_range_value"; "_fuel_driving_range_unit";
    "engine_type" ].

(** Lines 244-247. *)
Definition geocode_setter (value : value * value) : M unit :=
  write "_geocode_name" (fst value) ;;
  write "_geocode_address" (snd value).

(** The getters of lines 240-425; [total_driving_range] and
    [total_driving_range_unit] are above, with the pass that calls
    them. A getter that returns a tuple reads its components from left
    to right. *)
Module Get.

Definition geocode : M (value * value) :=
  name <- read "_geocode_name" ;;
  address <- read "_geocode_address" ;;
  ret (name, address).

Definition next_service_distance : M value := read "_next_service_distance".
Definition last_service_distance : M value := read "_last_service_distance".

Definition location_latitude : M value := read "_location_latitude".
Definition location_longitude : M value := read "_location_longitude".

(** Line 293: the longitude comes first. *)
Definition location : M (value * value) :=
  longitude <- read "_location_longitude" ;;
  latitude <- read "_location_latitude" ;;
  ret (longitude, latitude).

Definition location_last_updated_at : M value := read "_location_last_set_time".

Definition odometer : M value := read "_odometer".
Definition odometer_unit : M value := read "_odometer_unit".
Definition air_temperature : M value := read "_air_temperature".
Definition ev_driving_range : M value := read "_ev_driving_range".
Definition ev_driving_range_unit : M value := read "_ev_driving_range_unit".
Definition ev_estimated_current_charge_duration : M value :=
  read "_ev_estimated_current_charge_duration".
Definition ev_estimated_fast_charge_duration : M value :=
  read "_ev_estimated_fast_charge_duration".
Definition ev_estimated_portable_charge_duration : M value :=
  read "_ev_estimated_portable_charge_duration".
Definition ev_estimated_station_charge_duration : M value :=
  read "_ev_estimated_station_charge_duration".
Definition ev_target_range_charge_AC : M value := read "_ev_target_range_charge_AC".
Definition ev_target_range_charge_AC_unit : M value :=
  read "_ev_target_range_charge_AC_unit".
Definition ev_target_range_charge_DC : M value := read "_ev_target_range_charge_DC".
Definition ev_target_range_charge_DC_unit : M value :=
  read "_ev_target_range_charge_DC_unit".
Definition fuel_driving_range : M value := read "_fuel_driving_range".

End Get.

(** The getter of each property of [composites], and the unit getter of
    those that have one. *)
Definition value_getters : list (string * M value) :=
  [ ("_odometer", Get.odometer);
    ("_total_driving_range", total_driving_range);
    ("_air_temperature", Get.air_temperature);
    ("_ev_driving_range", Get.ev_driving_range);
    ("_ev_estimated_current_charge_duration", Get.ev_estimated_current_charge_duration);
    ("_ev_estimated_fast_charge_duration", Get.ev_estimated_fast_charge_duration);
    ("_ev_estimated_portable_charge_duration", Get.ev_estimated_portable_charge_duration);
    ("_ev_estimated_station_charge_duration", Get.ev_estimated_station_charge_duration);
    ("_ev_target_range_charge_AC", Get.ev_target_range_charge_AC);
    ("_ev_target_range_charge_DC", Get.ev_target_range_charge_DC);
    ("_fuel_driving_range", Get.fuel_driving_range);
    ("_next_service_distance", Get.next_service_distance);
    ("_last_service_distance", Get.last_service_distance) ].

Definition unit_getters : list (string * M value) :=
  [ ("_odometer", Get.odometer_unit);
    ("_total_driving_range", total_driving_range_unit);
    ("_ev_driving_range", Get.ev_driving_range_unit);
    ("_ev_target_range_charge_AC", Get.ev_target_range_charge_AC_unit);
    ("_ev_target_range_charge_DC", Get.ev_target_range_charge_DC_unit) ].

(** The charge durations of lines 593-608, each with its source path. *)
Definition charge_duration_fields : list (string * string) :=
  [ ("Green.ChargingInformation.Charging.RemainTime",
     "_ev_estimated_current_charge_duration");
    ("Green.ChargingInformation.EstimatedTime.Standard",
     "_ev_estimated_fast_charge_duration");
    ("Green.ChargingInformation.EstimatedTime.ICCB",
     "_ev_estimated_portable_charge_duration");
    ("Green.ChargingInformation.EstimatedTime.Quick",
     "_ev_estimated_station_charge_duration") ].

(** The target ranges of lines 618-641, each with its source path. *)
Definition target_range_fields : list (string * string) :=
  [ ("Green.ChargingInformation.DTE.TargetSoC.Standard", "_ev_target_range_charge_AC");
    ("Green.ChargingInformation.DTE.TargetSoC.Quick", "_ev_target_range_charge_DC") ].

(** [not_assigned_before b a]: no statement before the one that assigns
    [b] assigns [a]. *)
Definition not_assigned_before (b a : string) : bool :=
  unassigned a (firstn (statement_index b) update_ccs2_assigns).

(* ===================================================================== *)
(** ** A concrete setting for the runs shown below                        *)
(* ===================================================================== *)

Module Sample.

(** [path.split(".")] *)
Fixpoint split_dots (s : string) : list string :=
  match s with
  | EmptyString => [EmptyString]
  | String c s' =>
      if Ascii.eqb c "." then EmptyString :: split_dots s'
      else match split_dots s' with
           | [] => [String c EmptyString]
           | k :: ks => String c k :: ks
           end
  end.

Fixpoint dict_get (d : list (string * value)) (k : string) : option value :=
  match d with
  | [] => None
  | (k', v) :: d' => if String.eqb k' k then Some v else dict_get d' k
  end.

Fixpoint resolve (v : value) (keys : list string) : value :=
  match keys with
  | [] => v
  | k :: keys' =>
      match v with
      | VDict d => match dict_get d k with
                   | Some x => resolve x keys'
                   | None => VNone
                   end
      | _ => VNone
      end
  end.

(** Modelled from the spec: [get_child_value] of utils.py, which is not
    among the sources. "[path] is a dot-separated sequence of keys";
    "resolution walks the document one
    segment at a time; if the current value is not a traversable mapping,
    or the key is not present, resolution stops and returns Absent". *)
Definition resolve_path (document : value) (path : string) : value :=
  resolve document (split_dots path).

(** Readers of plain decimal digit strings. *)
Definition digit (c : ascii) : option Z :=
  let n := Z.of_nat (nat_of_ascii c) in
  if (48 <=? n) && (n <=? 57) then Some (n - 48) else None.

Fixpoint digits (acc : Z) (s : string) : option Z :=
  match s with
  | EmptyString => Some acc
  | String c s' => match digit c with
                   | Some d => digits (10 * acc + d) s'
                   | None => None
                   end
  end.

Definition int_of_digits (s : string) : option Z :=
  match s with
  | EmptyString => None
  | _ => digits 0 s
  end.

Definition float_of_digits (s : string) : option spec_float :=
  match int_of_digits s with
  | Some z => match float_of_Z z with
              | inr f => Some f
              | inl _ => None
              end
  | None => None
  end.

#[export] Instance sample_parsers : parsers :=
  {| float_of_string := float_of_digits; int_of_string := int_of_digits |}.

(** A [get_float] that answers [None] for [None] and the float of a
    number otherwise. *)
Definition float_or_None (v : value) : result value :=
  match v with
  | VNone => inr VNone
  | _ => py_float v
  end.

(** A [parse_datetime] that reads "YYYYMMDDhhmmss". *)
Definition read_datetime (v : value) (timezone : tzinfo) : result value :=
  match v with
  | VStr s =>
      match int_of_digits (substring 0 4 s), int_of_digits (substring 4 2 s),
            int_of_digits (substring 6 2 s), int_of_digits (substring 8 2 s),
            int_of_digits (substring 10 2 s), int_of_digits (substring 12 2 s) with
      | Some y, Some mo, Some d, Some h, Some mi, Some sec =>
          ebind (datetime_new y mo d h mi sec timezone) (fun t => inr (VDatetime t))
      | _, _, _, _, _, _ => inl ValueError
      end
  | _ => inl TypeError
  end.

#[export] Instance sample_utils : utils :=
  Build_utils resolve_path float_or_None read_datetime.

(** Tables keyed by small integer codes, none under [None]. *)
#[export] Instance sample_const : const :=
  {| DISTANCE_UNITS := [(Some 1, VStr "km"); (Some 2, VStr "mi")];
     TEMPERATURE_UNITS := [(Some 0, VStr "F"); (Some 1, VStr "C")];
     SEAT_STATUS := [(Some 0, VStr "Off"); (Some 1, VStr "On"); (Some 2, VStr "Off")] |}.

Definition berlin : tzinfo := mk_tzinfo "Europe/Berlin" 60.

(** Two readings of the clock. *)
Definition clock1 (tz : tzinfo) : datetime := mk_datetime 2024 5 17 10 0 0 tz.
Definition clock2 (tz : tzinfo) : datetime := mk_datetime 2024 5 17 10 5 0 tz.

(** An entry of a JSON object, left out when there is no value. *)
Definition entry (k : string) (v : option value) : list (string * value) :=
  match v with
  | Some x => [(k, x)]
  | None => []
  end.

Definition code (k : string) (v : option value) : list (string * value) :=
  entry k (option_map (fun x => VDict [("State", x)]) v).

(** A status document; the arguments are the readings that vary between
    the runs below, [None] leaving the path out. *)
Definition status (date seat total latitude defog air_temp : option value) : value :=
  VDict
    ( entry "Date" date ++
      [ ("Drivetrain",
         VDict [ ("Odometer", VInt 12345);
                 ("FuelSystem",
                  VDict [ ("DTE", VDict (entry "Total" total ++ [("Unit", VInt 1)]));
                          ("FuelLevel", VInt 60) ]) ]);
        ("Cabin",
         VDict [ ("HVAC",
                  VDict [ ("Row1",
                           VDict [ ("Driver",
                                    VDict [ ("Temperature",
                                             VDict (entry "Value" air_temp)) ]) ]) ]);
                 ("Seat",
                  VDict [ ("Row1",
                           VDict [ ("Driver", VDict (code "Climate" seat));
                                   ("Passenger",
                                    VDict [("Climate", VDict [("State", VInt 1)])]) ]);
                          ("Row2",
                           VDict [ ("Left", VDict [("Climate", VDict [("State", VInt 2)])]);
                                   ("Right", VDict [("Climate", VDict [("State", VInt 0)])]) ]) ]);
                 ("Door",
                  VDict [ ("Row1",
                           VDict [ ("Driver", VDict [("Open", VBool false)]);
                                   ("Passenger", VDict [("Open", VBool false)]) ]);
                          ("Row2",
                           VDict [ ("Left", VDict [("Open", VBool false)]);
                                   ("Right", VDict [("Open", VBool true)]) ]) ]) ]);
        ("Body",
         VDict [ ("Windshield",
                  VDict [ ("Front", VDict (code "Defog" defog));
                          ("Rear", VDict [("Defog", VDict [("State", VInt 1)])]) ]) ]);
        ("Green",
         VDict [ ("ChargingDoor", VDict [("State", VInt 2)]);
                 ("ChargingInformation",
                  VDict [ ("ElectricCurrentLevel", VDict [("State", VInt 1)]);
                          ("ConnectorFastening", VDict [("State", VInt 0)]) ]) ]);
        ("Location",
         VDict [ ("GeoCoord",
                  VDict (entry "Latitude" latitude ++
                         [("Longitude", VFloat (float_lit 134 (-1)))])) ]) ] ).

(** The usual document: everything the pass subscripts or converts is
    there; the front defog code is [defog]. It has no Electronics and no
    Location.TimeStamp. *)
Definition status_with (defog : option value) : value :=
  status (Some (VStr "20240517093000")) (Some (VInt 0)) (Some (VInt 400))
         (Some (VFloat (float_lit 105 (-1)))) defog (Some (VFloat (float_lit 39 (-1)))).

Definition status_ok : value := status_with (Some (VInt 0)).

(** The same without Drivetrain.FuelSystem.DTE.Total. *)
Definition status_no_total : value :=
  status (Some (VStr "20240517093000")) (Some (VInt 0)) None
         (Some (VFloat (float_lit 105 (-1)))) (Some (VInt 0))
         (Some (VFloat (float_lit 39 (-1)))).


(** The same with the latitude 0.0, on the equator. *)
Definition status_equator : value :=
  status (Some (VStr "20240517093000")) (Some (VInt 0)) (Some (VInt 400))
         (Some (VFloat (S754_zero false))) (Some (VInt 0))
         (Some (VFloat (float_lit 39 (-1)))).

(** The same without a Date. *)
Definition status_no_date : value :=
  status None (Some (VInt 0)) (Some (VInt 400))
         (Some (VFloat (float_lit 105 (-1)))) (Some (VInt 0))
         (Some (VFloat (float_lit 39 (-1)))).


(** A snapshot that has seen an earlier pass. *)
Definition earlier : Vehicle :=
  apply_writes
    [ ("car_battery_percentage", VInt 80);
      ("defrost_is_on", VBool true);
      ("engine_type", VEnum EV);
      ("_air_temperature_value", VFloat (float_lit 43 (-1)));
      ("_air_temperature_unit", VStr "C");
      ("_air_temperature", VFloat (float_lit 43 (-1)));
      ("_location_latitude", VFloat (float_lit 97 (-1)));
      ("_location_longitude", VFloat (float_lit 22 (-1)));
      ("_location_last_set_time", VDatetime (mk_datetime 2024 5 16 8 0 0 berlin)) ]
    Vehicle_default.

(** [doc] with the value [v] stored under the dotted [path]. *)
Fixpoint dict_put (inside : value -> value) (d : list (string * value)) (k : string)
  : list (string * value) :=
  match d with
  | [] => [(k, inside VNone)]
  | (k', x) :: d' =>
      if String.eqb k' k then (k', inside x) :: d'
      else (k', x) :: dict_put inside d' k
  end.

Fixpoint put (keys : list string) (v : value) (doc : value) : value :=
  match keys with
  | [] => v
  | k :: keys' =>
      VDict (dict_put (put keys' v) (match doc with VDict d => d | _ => [] end) k)
  end.

Definition with_path (path : string) (v : value) (doc : value) : value :=
  put (split_dots path) v doc.

(** The document of an electric car sold in miles: the usual document
    with the distance unit 2, the charging readings and the time of the
    fix. *)
Definition status_ev : value :=
  with_path "Drivetrain.FuelSystem.DTE.Unit" (VInt 2)
  (with_path "Green.ChargingInformation.Charging.RemainTime" (VInt 95)
  (with_path "Green.ChargingInformation.EstimatedTime.Standard" (VInt 420)
  (with_path "Green.ChargingInformation.EstimatedTime.Quick" (VInt 45)
  (with_path "Green.ChargingInformation.DTE.TargetSoC.Standard" (VInt 320)
  (with_path "Green.ChargingInformation.DTE.TargetSoC.Quick" (VInt 360)
  (with_path "Cabin.HVAC.Row1.Driver.Blower.SpeedLevel" (VInt 3)
  (with_path "Location.TimeStamp"
     (VDict [ ("Year", VInt 2024); ("Mon", VInt 5); ("Day", VInt 17);
              ("Hour", VInt 9); ("Min", VInt 29); ("Sec", VInt 58) ])
     status_ok))))))).

(** The same with a time of the fix that has no year, and with one that
    names the 31st of April. *)
Definition status_fix_no_year : value :=
  with_path "Location.TimeStamp"
    (VDict [ ("Mon", VInt 5); ("Day", VInt 17);
             ("Hour", VInt 9); ("Min", VInt 29); ("Sec", VInt 58) ])
    status_ok.

Definition status_fix_april_31 : value :=
  with_path "Location.TimeStamp.Day" (VInt 31)
  (with_path "Location.TimeStamp.Mon" (VInt 4) status_ev).

(** The usual document with a Date the reader of dates refuses. *)
Definition status_bad_date : value := with_path "Date" (VStr "yesterday") status_ok.

(** The usual document with an odometer reading that is no number. *)
Definition status_bad_odometer : value :=
  with_path "Drivetrain.Odometer" (VStr "n/a") status_ok.

End Sample.

(* ===================================================================== *)
(** ** Running statements                                                  *)
(* ===================================================================== *)

Lemma getattr_setattr_same (self : Vehicle) (a : string) (v : value) :
  getattr (setattr self a v) a = v.
Proof. unfold getattr, setattr. now rewrite String.eqb_refl. Qed.

Lemma getattr_setattr_other (self : Vehicle) (a b : string) (v : value) :
  a <> b -> getattr (setattr self a v) b = getattr self b.
Proof.
  intros Hab. unfold getattr, setattr.
  destruct (String.eqb_spec a b); [contradiction | reflexivity].
Qed.

Lemma returns_inr {A : Type} (self : Vehicle) (x : A) : returns (self, @inr exn A x).
Proof. now exists x. Qed.

Lemma returns_inl {A : Type} (self : Vehicle) (e : exn) : ~ returns (self, @inl exn A e).
Proof. intros [x Hx]. discriminate Hx. Qed.

Lemma returns_or_raises {A : Type} (r : Vehicle * result A) : returns r \/ raises r.
Proof. destruct r as [s [e | x]]; [right; now exists e | left; now exists x]. Qed.

(** A sequence returns when its head does and the rest does from there. *)
Lemma seq_cons_returns (c : M unit) (l : list (M unit)) (self : Vehicle) :
  returns (seq_all (c :: l) self) <->
  returns (c self) /\ returns (seq_all l (state_of (c self))).
Proof.
  cbn [seq_all]. unfold bind, state_of.
  destruct (c self) as [s1 [e | []]]; cbn [fst snd].
  - split; [intros H; now apply returns_inl in H | intros [H _]; now apply returns_inl in H].
  - split; [intros H; split; [apply returns_inr | exact H] | now intros [_ H]].
Qed.

Lemma seq_cons_state (c : M unit) (l : list (M unit)) (self : Vehicle) :
  returns (c self) ->
  seq_all (c :: l) self = seq_all l (state_of (c self)).
Proof.
  intros [x Hx]. cbn [seq_all]. unfold bind, state_of.
  destruct (c self) as [s1 r]; cbn [fst snd] in *. now subst r.
Qed.

Lemma seq_cons_raises (c : M unit) (l : list (M unit)) (self : Vehicle) :
  raises (c self) -> seq_all (c :: l) self = c self.
Proof.
  intros [e He]. cbn [seq_all]. unfold bind.
  destruct (c self) as [s1 r]; cbn [snd] in He. now subst r.
Qed.

Lemma seq_all_keeps (a : string) (l : list (M unit)) :
  Forall (keeps a) l -> keeps a (seq_all l).
Proof.
  induction 1 as [| c l Hc _ IH]; intros self; [reflexivity |].
  destruct (returns_or_raises (c self)) as [Hr | Hr].
  - rewrite (seq_cons_state _ _ _ Hr), IH. apply Hc.
  - rewrite (seq_cons_raises _ _ _ Hr). apply Hc.
Qed.

(** Once the statements before [c] have returned, an attribute the later
    statements keep ends with the value [c] leaves, whether or not [c] or
    a later statement raises. *)
Lemma seq_all_upto (pre : list (M unit)) (c : M unit) (post : list (M unit))
    (self : Vehicle) (a : string) :
  returns (seq_all pre self) ->
  Forall (keeps a) post ->
  getattr (state_of (seq_all (pre ++ c :: post) self)) a
  = getattr (state_of (c (state_of (seq_all pre self)))) a.
Proof.
  revert self. induction pre as [| d pre IH]; intros self Hret Hpost.
  - cbn [app]. destruct (returns_or_raises (c self)) as [Hr | Hr].
    + rewrite (seq_cons_state _ _ _ Hr). now apply seq_all_keeps.
    + now rewrite (seq_cons_raises _ _ _ Hr).
  - cbn [app]. apply seq_cons_returns in Hret as Hret'. destruct Hret' as [Hd Hrest].
    rewrite !(seq_cons_state _ _ _ Hd). now apply IH.
Qed.

Lemma seq_all_prefix_returns (pre post : list (M unit)) (self : Vehicle) :
  returns (seq_all (pre ++ post) self) -> returns (seq_all pre self).
Proof.
  revert self. induction pre as [| d pre IH]; intros self Hret.
  - apply returns_inr.
  - cbn [app] in Hret. apply seq_cons_returns in Hret. destruct Hret as [Hd Hrest].
    apply seq_cons_returns. split; [exact Hd | now apply IH].
Qed.

(** Every statement of a run that returns has returned. *)
Lemma seq_all_inside (pre : list (M unit)) (c : M unit) (post : list (M unit))
    (self : Vehicle) :
  returns (seq_all (pre ++ c :: post) self) ->
  returns (c (state_of (seq_all pre self))).
Proof.
  revert self. induction pre as [| d pre IH]; intros self Hret.
  - cbn [app] in Hret. now apply seq_cons_returns in Hret.
  - cbn [app] in Hret. apply seq_cons_returns in Hret as Hret'. destruct Hret' as [Hd Hrest].
    rewrite (seq_cons_state _ _ _ Hd). now apply IH.
Qed.

(** Unfolding the statement forms, one step of a run at a time. *)
Ltac run_step :=
  cbv beta iota zeta delta
    [assign call bind lift write read ret tri_state tuple2 ebind state_of fst snd
     stmt_is_locked stmt_ev_driving_range stmt_location
     total_driving_range total_driving_range_unit
     total_driving_range_setter next_service_distance_setter
     last_service_distance_setter location_setter odometer_setter
     air_temperature_setter ev_driving_range_setter
     ev_estimated_current_charge_duration_setter
     ev_estimated_fast_charge_duration_setter
     ev_estimated_portable_charge_duration_setter
     ev_estimated_station_charge_duration_setter
     ev_target_range_charge_AC_setter ev_target_range_charge_DC_setter
     fuel_driving_range_setter].

Ltac split_match :=
  match goal with
  | H : ?x = _ |- context [match ?y with _ => _ end] =>
      constr_eq x y; rewrite H; cbv beta iota
  | |- context [match ?x with _ => _ end] =>
      lazymatch x with
      | context [match _ with _ => _ end] => fail
      | _ => destruct x eqn:?; cbv beta iota
      end
  end.

(** [keeps a c] for a statement [c] of the pass and an attribute name
    given in full. *)
Ltac keeps_tac := intros ?; run_step; repeat split_match; reflexivity.

(* ===================================================================== *)
(** ** The statements of [update_ccs2]                                    *)
(* ===================================================================== *)

Section Properties.
Context {U : utils} {C : const} {P : parsers}.

Ltac assigns_tac :=
  intros ? ? Ha; cbn [existsb] in Ha;
  repeat (apply orb_false_elim in Ha; destruct Ha as [? Ha]);
  clear Ha; run_step; unfold getattr, setattr;
  repeat split_match; reflexivity.

(** Each statement assigns the attributes listed for it and no other. *)
Lemma body_assigns (now : tzinfo -> datetime) (tz : tzinfo) (state : value) :
  Forall2 assigns_only update_ccs2_assigns (update_ccs2_body now tz state).
Proof.
  cbv beta iota zeta delta [update_ccs2_assigns update_ccs2_body].
  repeat (apply Forall2_cons; [assigns_tac |]). apply Forall2_nil.
Qed.

Lemma unassigned_keeps (a : string) (names : list (list string)) (l : list (M unit)) :
  Forall2 assigns_only names l -> unassigned a names = true -> Forall (keeps a) l.
Proof.
  induction 1 as [| ns c names l Hc _ IH]; intros Hu; constructor.
  - cbn [unassigned forallb] in Hu. apply andb_prop in Hu as [Hn _].
    intros self. apply Hc. now apply negb_true_iff.
  - apply IH. cbn [unassigned forallb] in Hu. now apply andb_prop in Hu as [_ Hr].
Qed.

Lemma Forall2_drop {A B : Type} (R : A -> B -> Prop) (n : nat) (l1 : list A) (l2 : list B) :
  Forall2 R l1 l2 -> Forall2 R (skipn n l1) (skipn n l2).
Proof.
  intros H. revert n. induction H; intros [| n]; cbn [skipn]; auto.
Qed.

Lemma Forall2_take {A B : Type} (R : A -> B -> Prop) (n : nat) (l1 : list A) (l2 : list B) :
  Forall2 R l1 l2 -> Forall2 R (firstn n l1) (firstn n l2).
Proof.
  intros H. revert n. induction H; intros [| n]; cbn [firstn]; auto.
Qed.

Lemma nth_error_cut {A : Type} (l : list A) (n : nat) (x : A) :
  nth_error l n = Some x -> l = (firstn n l ++ x :: skipn (S n) l)%list.
Proof.
  revert n. induction l as [| y l IH]; intros [| n] H; try discriminate H.
  - cbn in H. injection H as ->. reflexivity.
  - cbn [firstn skipn app]. f_equal. now apply IH.
Qed.

(** Once a run has got to statement [n], an attribute no later statement
    assigns ends with the value statement [n] leaves, whether or not that
    statement or a later one raises. *)
Lemma attr_upto_list (names : list (list string)) (l : list (M unit))
    (n : nat) (a : string) (c : M unit) (self : Vehicle) :
  Forall2 assigns_only names l ->
  nth_error l n = Some c ->
  unassigned a (skipn (S n) names) = true ->
  returns (seq_all (firstn n l) self) ->
  getattr (state_of (seq_all l self)) a
  = getattr (state_of (c (state_of (seq_all (firstn n l) self)))) a.
Proof.
  intros Hall Hn Hu Hpre.
  assert (Forall (keeps a) (skipn (S n) l)) as Hpost.
  { apply (unassigned_keeps a (skipn (S n) names)); [| exact Hu].
    now apply Forall2_drop. }
  pose proof (nth_error_cut _ _ _ Hn) as E.
  remember (firstn n l) as pre. remember (skipn (S n) l) as post.
  rewrite E. now apply seq_all_upto.
Qed.

Lemma attr_upto (n : nat) (a : string) (c : M unit)
    (now : tzinfo -> datetime) (tz : tzinfo) (state : value) (self : Vehicle) :
  nth_error (update_ccs2_body now tz state) n = Some c ->
  unassigned a (skipn (S n) update_ccs2_assigns) = true ->
  returns (seq_all (firstn n (update_ccs2_body now tz state)) self) ->
  getattr (state_of (update_ccs2 now tz state self)) a
  = getattr (state_of (c (state_of (seq_all (firstn n (update_ccs2_body now tz state))
                                      self)))) a.
Proof.
  intros Hn Hu Hpre.
  apply (attr_upto_list update_ccs2_assigns); auto using body_assigns.
Qed.

(** The value a plain assignment of the answer [v] leaves. *)
Lemma assigned_value (n : nat) (a : string) (v : value)
    (now : tzinfo -> datetime) (tz : tzinfo) (state : value) (self : Vehicle) :
  nth_error (update_ccs2_body now tz state) n = Some (assign a (inr v)) ->
  unassigned a (skipn (S n) update_ccs2_assigns) = true ->
  returns (seq_all (firstn n (update_ccs2_body now tz state)) self) ->
  getattr (state_of (update_ccs2 now tz state self)) a = v.
Proof.
  intros Hn Hu Hpre. rewrite (attr_upto n a _ now tz state self Hn Hu Hpre).
  apply getattr_setattr_same.
Qed.

(** Whether the run returns or not, an attribute that statement [n] keeps
    and no other statement assigns is as it was. *)
Lemma attr_kept (n : nat) (a : string) (c : M unit)
    (now : tzinfo -> datetime) (tz : tzinfo) (state : value) :
  nth_error (update_ccs2_body now tz state) n = Some c ->
  keeps a c ->
  unassigned a (firstn n update_ccs2_assigns) = true ->
  unassigned a (skipn (S n) update_ccs2_assigns) = true ->
  keeps a (update_ccs2 now tz state).
Proof.
  intros Hn Hc Hpre Hpost. unfold update_ccs2. rewrite (nth_error_cut _ _ _ Hn).
  apply seq_all_keeps, Forall_app. split; [| constructor; [exact Hc |]].
  - apply (unassigned_keeps a (firstn n update_ccs2_assigns)); [| exact Hpre].
    apply Forall2_take, body_assigns.
  - apply (unassigned_keeps a (skipn (S n) update_ccs2_assigns)); [| exact Hpost].
    apply Forall2_drop, body_assigns.
Qed.

(** Every statement of a run that returns has returned. *)
Lemma statement_returned_list (l : list (M unit)) (n : nat) (c : M unit) (self : Vehicle) :
  nth_error l n = Some c -> returns (seq_all l self) -> exists s1, returns (c s1).
Proof.
  intros Hn. rewrite (nth_error_cut _ _ _ Hn). intros Hret.
  eexists. eapply seq_all_inside, Hret.
Qed.

Lemma statement_returned (n : nat) (c : M unit)
    (now : tzinfo -> datetime) (tz : tzinfo) (state : value) (self : Vehicle) :
  nth_error (update_ccs2_body now tz state) n = Some c ->
  returns (update_ccs2 now tz state self) ->
  exists s1, returns (c s1).
Proof. apply statement_returned_list. Qed.

(** A run that has got to a statement has got to the ones before it, and
    a run that returns has got to them all. *)
Lemma prefix_returns (m n : nat) (l : list (M unit)) (self : Vehicle) :
  (m <= n)%nat ->
  returns (seq_all (firstn n l) self) -> returns (seq_all (firstn m l) self).
Proof.
  intros Hmn Hret.
  rewrite <- (firstn_skipn m (firstn n l)), firstn_firstn, Nat.min_l in Hret by exact Hmn.
  eapply seq_all_prefix_returns, Hret.
Qed.

Lemma returns_gets_to (a : string)
    (now : tzinfo -> datetime) (tz : tzinfo) (state : value) (self : Vehicle) :
  returns (update_ccs2 now tz state self) -> gets_to a now tz state self.
Proof.
  unfold update_ccs2, gets_to. intros Hret.
  rewrite <- (firstn_skipn (statement_index a) (update_ccs2_body now tz state)) in Hret.
  eapply seq_all_prefix_returns, Hret.
Qed.

(** *** Lines 453-469 and 560-564: the tri-state toggles *)

Lemma in_ints_02 (v : value) :
  v = VInt 0 \/ v = VInt 2 -> in_ints v [0; 2] = true.
Proof. intros [-> | ->]; reflexivity. Qed.

Lemma tri_state_false (a : string) (code : value) (self : Vehicle) :
  in_ints code [0; 2] = true ->
  getattr (state_of (tri_state a code self)) a = VBool false.
Proof. intros H. unfold tri_state. rewrite H. apply getattr_setattr_same. Qed.

Lemma tri_state_true (a : string) (code : value) (self : Vehicle) :
  in_ints code [0; 2] = false -> eq_int code 1 = true ->
  getattr (state_of (tri_state a code self)) a = VBool true.
Proof. intros H0 H1. unfold tri_state. rewrite H0, H1. apply getattr_setattr_same. Qed.

Lemma tri_state_keeps (a : string) (code : value) :
  in_ints code [0; 2] = false -> eq_int code 1 = false ->
  keeps a (tri_state a code).
Proof. intros H0 H1 self. unfold tri_state. now rewrite H0, H1. Qed.

(** Where each toggle is decoded, and that nothing else assigns it. *)
Lemma tri_state_statement (now : tzinfo -> datetime) (tz : tzinfo) (state : value)
    (p a : string) :
  In (p, a) tri_state_fields ->
  nth_error (update_ccs2_body now tz state) (statement_index a)
  = Some (tri_state a (get_child_value state p))
  /\ unassigned a (firstn (statement_index a) update_ccs2_assigns) = true
  /\ unassigned a (skipn (S (statement_index a)) update_ccs2_assigns) = true.
Proof.
  intros Hin. cbn [tri_state_fields In] in Hin.
  destruct Hin as [H | [H | [H | [H | []]]]]; injection H as <- <-;
    (split; [reflexivity | split; vm_compute; reflexivity]).
Qed.

(** A code that is none of 0, 1, 2 leaves the toggle as it was, in a run
    that returns and in one that raises. *)
Lemma tri_state_field_kept (now : tzinfo -> datetime) (tz : tzinfo) (state : value)
    (self : Vehicle) (p a : string) :
  In (p, a) tri_state_fields ->
  in_ints (get_child_value state p) [0; 2] = false ->
  eq_int (get_child_value state p) 1 = false ->
  getattr (state_of (update_ccs2 now tz state self)) a = getattr self a.
Proof.
  intros Hin H0 H1.
  destruct (tri_state_statement now tz state p a Hin) as (Hn & Hpre & Hpost).
  apply (attr_kept _ a _ now tz state Hn); auto using tri_state_keeps.
Qed.

(** C4. For each tri-state toggle (front defrost, steering-wheel heater,
    rear defrost, charge-port door): once the pass has got to the toggle
    (as every pass that returns has), code 0 or 2 sets the field to False
    and code 1 sets it to True; a code that is equal to none of 0, 1, 2
    (an absent one, [None], and any other int among them) leaves the
    field at the value it had before the pass. *)
Theorem C4_tri_state_decoding
    (now : tzinfo -> datetime) (tz : tzinfo) (state : value) (self : Vehicle)
    (p a : string) :
  In (p, a) tri_state_fields ->
  let run := update_ccs2 now tz state self in
  let code := get_child_value state p in
  (gets_to a now tz state self -> code = VInt 0 \/ code = VInt 2 ->
   getattr (state_of run) a = VBool false) /\
  (gets_to a now tz state self -> code = VInt 1 ->
   getattr (state_of run) a = VBool true) /\
  (eq_int code 0 = false -> eq_int code 1 = false -> eq_int code 2 = false ->
   getattr (state_of run) a = getattr self a) /\
  (code = VNone \/ (exists z, code = VInt z /\ z <> 0 /\ z <> 1 /\ z <> 2) ->
   getattr (state_of run) a = getattr self a).
Proof.
  intros Hin run code. subst run code.
  destruct (tri_state_statement now tz state p a Hin) as (Hn & Hpre & Hpost).
  repeat split.
  - intros Hto Hc. rewrite (attr_upto _ a _ now tz state self Hn Hpost Hto).
    now apply tri_state_false, in_ints_02.
  - intros Hto Hc. rewrite (attr_upto _ a _ now tz state self Hn Hpost Hto).
    apply tri_state_true; rewrite Hc; reflexivity.
  - intros H0 H1 H2. apply (tri_state_field_kept now tz state self p a Hin); [| exact H1].
    unfold in_ints, existsb. now rewrite H0, H2.
  - intros Hc. apply (tri_state_field_kept now tz state self p a Hin).
    + destruct Hc as [-> | (z & -> & H0 & H1 & H2)]; [reflexivity |].
      unfold in_ints, eq_int, as_integer, existsb.
      apply Z.eqb_neq in H0, H2. now rewrite H0, H2.
    + destruct Hc as [-> | (z & -> & H0 & H1 & H2)]; [reflexivity |].
      unfold eq_int, as_integer. now apply Z.eqb_neq.
Qed.

(** *** Lines 554-559: the plug *)

(** C10. Once the pass has got to line 557 (as every pass that returns
    has), [ev_battery_is_plugged_in] is the resolver's answer for
    Green.ChargingInformation.ConnectorFastening.State, [None] when the
    path is absent, whatever
    Green.ChargingInformation.ElectricCurrentLevel.State holds. *)
Theorem C10_plugged_in_is_connector_fastening
    (now : tzinfo -> datetime) (tz : tzinfo) (state : value) (self : Vehicle) :
  gets_to "ev_battery_is_plugged_in" now tz state self ->
  getattr (state_of (update_ccs2 now tz state self)) "ev_battery_is_plugged_in"
  = get_child_value state "Green.ChargingInformation.ConnectorFastening.State".
Proof.
  intros Hto. apply (assigned_value 33); [reflexivity | vm_compute; reflexivity | exact Hto].
Qed.

(** *** Lines 491-510: the doors and the lock *)

Lemma truthy_or (x y : value) : truthy (py_or x y) = truthy x || truthy y.
Proof. unfold py_or. destruct (truthy x) eqn:E; [now rewrite E | reflexivity]. Qed.

(** The door fields hold the resolver's answers when [is_locked] is
    computed. *)
Lemma doors_before_lock (now : tzinfo -> datetime) (tz : tzinfo) (state : value)
    (self : Vehicle) :
  returns (seq_all (firstn 16 (update_ccs2_body now tz state)) self) ->
  let s1 := state_of (seq_all (firstn 16 (update_ccs2_body now tz state)) self) in
  getattr s1 "front_left_door_is_open" = get_child_value state "Cabin.Door.Row1.Driver.Open" /\
  getattr s1 "front_right_door_is_open"
  = get_child_value state "Cabin.Door.Row1.Passenger.Open" /\
  getattr s1 "back_left_door_is_open" = get_child_value state "Cabin.Door.Row2.Left.Open" /\
  getattr s1 "back_right_door_is_open" = get_child_value state "Cabin.Door.Row2.Right.Open".
Proof.
  intros Hret s1. subst s1.
  pose proof (Forall2_take _ 16 _ _ (body_assigns now tz state)) as Hall.
  repeat split.
  - rewrite (attr_upto_list _ _ 12 "front_left_door_is_open" _ self Hall eq_refl eq_refl);
      [apply getattr_setattr_same |
       apply (prefix_returns 12 16 (firstn 16 (update_ccs2_body now tz state)));
       [lia | exact Hret]].
  - rewrite (attr_upto_list _ _ 13 "front_right_door_is_open" _ self Hall eq_refl eq_refl);
      [apply getattr_setattr_same |
       apply (prefix_returns 13 16 (firstn 16 (update_ccs2_body now tz state)));
       [lia | exact Hret]].
  - rewrite (attr_upto_list _ _ 14 "back_left_door_is_open" _ self Hall eq_refl eq_refl);
      [apply getattr_setattr_same |
       apply (prefix_returns 14 16 (firstn 16 (update_ccs2_body now tz state)));
       [lia | exact Hret]].
  - rewrite (attr_upto_list _ _ 15 "back_right_door_is_open" _ self Hall eq_refl eq_refl);
      [apply getattr_setattr_same |
       apply (prefix_returns 15 16 (firstn 16 (update_ccs2_body now tz state)));
       [lia | exact Hret]].
Qed.

(** C6. Once the pass has got to line 505 (as every pass that returns
    has), the four door fields hold what the pass read for them and
    [is_locked] is True exactly when none of the four is true: all four
    False gives True, any one True gives False. *)
Theorem C6_is_locked_from_doors
    (now : tzinfo -> datetime) (tz : tzinfo) (state : value) (self : Vehicle) :
  gets_to "is_locked" now tz state self ->
  let after := state_of (update_ccs2 now tz state self) in
  let fl := getattr after "front_left_door_is_open" in
  let fr := getattr after "front_right_door_is_open" in
  let bl := getattr after "back_left_door_is_open" in
  let br := getattr after "back_right_door_is_open" in
  fl = get_child_value state "Cabin.Door.Row1.Driver.Open" /\
  fr = get_child_value state "Cabin.Door.Row1.Passenger.Open" /\
  bl = get_child_value state "Cabin.Door.Row2.Left.Open" /\
  br = get_child_value state "Cabin.Door.Row2.Right.Open" /\
  getattr after "is_locked"
  = VBool (negb (truthy fl || truthy fr || truthy bl || truthy br)) /\
  (fl = VBool false -> fr = VBool false -> bl = VBool false -> br = VBool false ->
   getattr after "is_locked" = VBool true) /\
  (fl = VBool true \/ fr = VBool true \/ bl = VBool true \/ br = VBool true ->
   getattr after "is_locked" = VBool false).
Proof.
  intros Hto after fl fr bl br.
  assert (returns (seq_all (firstn 16 (update_ccs2_body now tz state)) self)) as Hpre
    by exact Hto.
  assert (fl = get_child_value state "Cabin.Door.Row1.Driver.Open") as Efl
    by (apply (assigned_value 12);
        [reflexivity | vm_compute; reflexivity | now apply (prefix_returns 12 16); [lia |]]).
  assert (fr = get_child_value state "Cabin.Door.Row1.Passenger.Open") as Efr
    by (apply (assigned_value 13);
        [reflexivity | vm_compute; reflexivity | now apply (prefix_returns 13 16); [lia |]]).
  assert (bl = get_child_value state "Cabin.Door.Row2.Left.Open") as Ebl
    by (apply (assigned_value 14);
        [reflexivity | vm_compute; reflexivity | now apply (prefix_returns 14 16); [lia |]]).
  assert (br = get_child_value state "Cabin.Door.Row2.Right.Open") as Ebr
    by (apply (assigned_value 15);
        [reflexivity | vm_compute; reflexivity | now apply (prefix_returns 15 16); [lia |]]).
  assert (getattr after "is_locked"
          = VBool (negb (truthy fl || truthy fr || truthy bl || truthy br))) as Elock.
  { subst after.
    rewrite (attr_upto 16 "is_locked" _ now tz state self eq_refl eq_refl Hpre).
    destruct (doors_before_lock now tz state self Hpre) as (D1 & D2 & D3 & D4).
    remember (state_of (seq_all (firstn 16 (update_ccs2_body now tz state)) self)) as s1.
    unfold stmt_is_locked, bind, read, write, state_of. cbn [fst snd].
    rewrite getattr_setattr_same, D1, D2, D3, D4, Efl, Efr, Ebl, Ebr.
    unfold py_not. now rewrite !truthy_or. }
  repeat split; try assumption.
  - intros -> -> -> ->. exact Elock.
  - intros H. rewrite Elock.
    destruct H as [-> | [-> | [-> | ->]]]; cbn [truthy]; now rewrite ?orb_true_r.
Qed.

(** *** The plain and the coerced assignments *)

Ltac find_assign a :=
  let n := eval vm_compute in (statement_index a) in
  apply (assigned_value n); [reflexivity | vm_compute; reflexivity | assumption].

(** Once the pass has got to a pass-through field, the field holds the
    resolver's answer for its path. *)
Lemma pass_through_value (now : tzinfo -> datetime) (tz : tzinfo) (state : value)
    (self : Vehicle) (p a : string) :
  In (p, a) pass_through_fields ->
  gets_to a now tz state self ->
  getattr (state_of (update_ccs2 now tz state self)) a = get_child_value state p.
Proof.
  intros Hin. cbn [pass_through_fields In] in Hin.
  repeat (destruct Hin as [H | Hin];
          [injection H as <- <-; intros Hto;
           match goal with |- getattr _ ?a = _ => find_assign a end |]).
  destruct Hin.
Qed.

(** Once the pass has got to a coerced field, the field holds the truth
    value of the resolver's answer for its path. *)
Lemma coerced_value (now : tzinfo -> datetime) (tz : tzinfo) (state : value)
    (self : Vehicle) (p a : string) :
  In (p, a) coerced_fields ->
  gets_to a now tz state self ->
  getattr (state_of (update_ccs2 now tz state self)) a
  = py_bool (get_child_value state p).
Proof.
  intros Hin. cbn [coerced_fields In] in Hin.
  repeat (destruct Hin as [H | Hin];
          [injection H as <- <-; intros Hto;
           match goal with |- getattr _ ?a = _ => find_assign a end |]).
  destruct Hin.
Qed.

(** *** Lines 445-451: the cabin temperature *)




(** *** Lines 473-487: the seat status *)




(** *** Lines 674-692: the location *)

Lemma default_fix_time (tz : tzinfo) (state : value) :
  get_child_value state "Location.TimeStamp" = VNone ->
  location_last_updated_at tz state = inr (VDatetime (mk_datetime 2000 1 1 0 0 0 tz)).
Proof. intros H. unfold location_last_updated_at. now rewrite H. Qed.

(** A latitude that is not true leaves the location triple as it was, in
    a run that returns and in one that raises. *)
Lemma location_kept (now : tzinfo -> datetime) (tz : tzinfo) (state : value)
    (self : Vehicle) :
  truthy (get_child_value state "Location.GeoCoord.Latitude") = false ->
  location_of (state_of (update_ccs2 now tz state self)) = location_of self.
Proof.
  intros Hlat. unfold location_of.
  rewrite !(attr_kept 55 _ _ now tz state eq_refl); try reflexivity;
    intros s; unfold stmt_location; rewrite Hlat; reflexivity.
Qed.

(** A latitude that is true makes the pass store the triple, once it has
    got to line 674 and has a time for the fix. *)
Lemma location_written (now : tzinfo -> datetime) (tz : tzinfo) (state : value)
    (self : Vehicle) (t : value) :
  truthy (get_child_value state "Location.GeoCoord.Latitude") = true ->
  gets_to "_location_latitude" now tz state self ->
  location_last_updated_at tz state = inr t ->
  location_of (state_of (update_ccs2 now tz state self))
  = (get_child_value state "Location.GeoCoord.Latitude",
     get_child_value state "Location.GeoCoord.Longitude", t).
Proof.
  intros Hlat Hto Et.
  assert (returns (seq_all (firstn 55 (update_ccs2_body now tz state)) self)) as Hpre
    by exact Hto.
  unfold location_of.
  rewrite (attr_upto 55 "_location_latitude" _ now tz state self eq_refl eq_refl Hpre).
  rewrite (attr_upto 55 "_location_longitude" _ now tz state self eq_refl eq_refl Hpre).
  rewrite (attr_upto 55 "_location_last_set_time" _ now tz state self eq_refl eq_refl Hpre).
  run_step. rewrite Hlat, Et. reflexivity.
Qed.

(** C8, amended. The location triple is written only when the latitude
    reading is true (present and neither zero nor empty): an absent
    latitude, and any reading that is not true, leaves latitude,
    longitude and time as they were. When the reading is true and the
    pass has got to line 674 (as every pass that returns has), the three
    are stored together, and the time is 2000-01-01 00:00:00 in the given
    timezone when Location.TimeStamp is absent. *)
Theorem C8_location_written_when_latitude_true
    (now : tzinfo -> datetime) (tz : tzinfo) (state : value) (self : Vehicle) :
  let run := update_ccs2 now tz state self in
  let latitude := get_child_value state "Location.GeoCoord.Latitude" in
  let longitude := get_child_value state "Location.GeoCoord.Longitude" in
  (latitude = VNone -> location_of (state_of run) = location_of self) /\
  (truthy latitude = false -> location_of (state_of run) = location_of self) /\
  (truthy latitude = true -> gets_to "_location_latitude" now tz state self ->
   forall t, location_last_updated_at tz state = inr t ->
             location_of (state_of run) = (latitude, longitude, t)) /\
  (truthy latitude = true -> gets_to "_location_latitude" now tz state self ->
   get_child_value state "Location.TimeStamp" = VNone ->
   location_of (state_of run)
   = (latitude, longitude, VDatetime (mk_datetime 2000 1 1 0 0 0 tz))).
Proof.
  intros run latitude longitude. subst run latitude longitude. repeat split.
  - intros Hlat. apply location_kept. now rewrite Hlat.
  - apply location_kept.
  - intros Hlat Hto t Et. now apply location_written.
  - intros Hlat Hto Hts. apply location_written; [exact Hlat | exact Hto |].
    now apply default_fix_time.
Qed.

(** *** Absent source paths *)

(** C1, amended. A field the pass assigns under a test of its source
    keeps its value when the source path is absent: the four tri-state
    toggles and the location triple. A field the pass assigns outright
    does not: once the pass has got to it (as every pass that returns
    has), a pass-through field whose path is absent is [None] and a
    coerced one is False, whatever they held before. *)
Theorem C1_absent_source
    (now : tzinfo -> datetime) (tz : tzinfo) (state : value) (self : Vehicle) :
  let run := update_ccs2 now tz state self in
  (forall p a, In (p, a) tri_state_fields -> get_child_value state p = VNone ->
               getattr (state_of run) a = getattr self a) /\
  (get_child_value state "Location.GeoCoord.Latitude" = VNone ->
   location_of (state_of run) = location_of self) /\
  (forall p a, In (p, a) pass_through_fields -> get_child_value state p = VNone ->
               gets_to a now tz state self ->
               getattr (state_of run) a = VNone) /\
  (forall p a, In (p, a) coerced_fields -> get_child_value state p = VNone ->
               gets_to a now tz state self ->
               getattr (state_of run) a = VBool false).
Proof.
  intros run. subst run. repeat split.
  - intros p a Hin Hp.
    apply (tri_state_field_kept now tz state self p a Hin); now rewrite Hp.
  - intros Hlat. apply location_kept. now rewrite Hlat.
  - intros p a Hin Hp Hto. rewrite <- Hp. now apply pass_through_value.
  - intros p a Hin Hp Hto. rewrite (coerced_value now tz state self p a Hin Hto).
    now rewrite Hp.
Qed.

(** *** What can raise *)




(** *** Lines 240-425: a value and its unit *)




(** *** Running the pass again *)

Lemma apply_writes_app (w1 w2 : writes) (self : Vehicle) :
  apply_writes (w1 ++ w2)%list self = apply_writes w2 (apply_writes w1 self).
Proof.
  revert self. induction w1 as [| [a v] w1 IH]; intros self; [reflexivity | apply IH].
Qed.

Lemma last_write_app (a : string) (w1 w2 : writes) :
  last_write a (w1 ++ w2)%list
  = match last_write a w2 with
    | Some v => Some v
    | None => last_write a w1
    end.
Proof.
  induction w1 as [| [a' v] w1 IH]; cbn [app last_write].
  - now destruct (last_write a w2).
  - rewrite IH. now destruct (last_write a w2).
Qed.

Lemma apply_writes_spec (w : writes) (self : Vehicle) (a : string) :
  getattr (apply_writes w self) a
  = match last_write a w with
    | Some v => v
    | None => getattr self a
    end.
Proof.
  revert self. induction w as [| [a' v] w IH]; intros self; cbn [apply_writes last_write].
  - reflexivity.
  - rewrite IH. destruct (last_write a w); [reflexivity |].
    unfold getattr, setattr. now destruct (String.eqb a' a).
Qed.

Lemma determined_ext (c c' : M unit) :
  (forall self, c self = c' self) -> determined c -> determined c'.
Proof.
  intros Hext (g & Hg & Hc). exists g. split; [exact Hg |].
  intros self. now rewrite <- Hext.
Qed.

Lemma determined_ret : determined (ret tt).
Proof. exists (fun _ => ([], inr tt)). split; [reflexivity | reflexivity]. Qed.

Lemma determined_write (a : string) (v : value) :
  String.eqb a "engine_type" = false -> determined (write a v).
Proof.
  intros Ha. exists (fun _ => ([(a, v)], inr tt)). split; [| reflexivity].
  intros _. cbn [fst last_write]. now rewrite Ha.
Qed.

Lemma determined_lift_bind {A : Type} (E : result A) (k : A -> M unit) :
  (forall x, determined (k x)) -> determined (bind (lift E) k).
Proof.
  intros Hk. destruct E as [e | x].
  - exists (fun _ => ([], inl e)). split; reflexivity.
  - apply (determined_ext (k x)); [reflexivity | apply Hk].
Qed.

Lemma determined_if (b : bool) (c1 c2 : M unit) :
  determined c1 -> determined c2 -> determined (if b then c1 else c2).
Proof. now destruct b. Qed.

Lemma determined_seq (c1 c2 : M unit) :
  determined c1 -> determined c2 -> determined (bind c1 (fun _ => c2)).
Proof.
  intros (g1 & Hg1 & Hc1) (g2 & Hg2 & Hc2).
  exists (fun e => match snd (g1 e) with
                   | inl err => (fst (g1 e), inl err)
                   | inr _ => ((fst (g1 e) ++ fst (g2 e))%list, snd (g2 e))
                   end).
  split.
  - intros e. destruct (snd (g1 e)); cbn [fst]; [apply Hg1 |].
    now rewrite last_write_app, Hg2, Hg1.
  - intros self. unfold bind. rewrite Hc1.
    destruct (snd (g1 (getattr self "engine_type"))) as [err | []]; cbn [fst snd];
      [reflexivity |].
    rewrite Hc2, apply_writes_spec, Hg1, apply_writes_app. reflexivity.
Qed.

Lemma determined_seq_all (l : list (M unit)) :
  Forall determined l -> determined (seq_all l).
Proof.
  induction 1 as [| c l Hc _ IH]; cbn [seq_all];
    [apply determined_ret | now apply determined_seq].
Qed.

Lemma seq_all_app (l1 l2 : list (M unit)) (self : Vehicle) :
  seq_all (l1 ++ l2)%list self = bind (seq_all l1) (fun _ => seq_all l2) self.
Proof.
  revert self. induction l1 as [| c l1 IH]; intros self; [reflexivity |].
  cbn [app seq_all]. unfold bind.
  destruct (c self) as [s1 [e | []]]; [reflexivity | now rewrite IH].
Qed.

Lemma determined_app (l1 l2 : list (M unit)) :
  determined (seq_all l1) -> determined (seq_all l2) ->
  determined (seq_all (l1 ++ l2)%list).
Proof.
  intros H1 H2.
  apply (determined_ext (bind (seq_all l1) (fun _ => seq_all l2)));
    [intros self; symmetry; apply seq_all_app | now apply determined_seq].
Qed.

Ltac determined_tac :=
  repeat first
    [ apply determined_ret
    | apply determined_write; reflexivity
    | apply determined_if
    | apply determined_lift_bind; intros ?
    | apply determined_seq
    | progress unfold assign, call, tri_state, stmt_location,
        location_setter, odometer_setter, air_temperature_setter,
        ev_estimated_current_charge_duration_setter,
        ev_estimated_fast_charge_duration_setter,
        ev_estimated_portable_charge_duration_setter,
        ev_estimated_station_charge_duration_setter,
        ev_target_range_charge_AC_setter, ev_target_range_charge_DC_setter ].

Ltac determined_all :=
  apply determined_seq_all; repeat (apply Forall_cons; [determined_tac |]); apply Forall_nil.

(** Lines 491-510 as one block: the lock is computed from the door
    fields the block has just assigned. *)
Lemma doors_and_lock_determined (v1 v2 v3 v4 : value) :
  determined
    (seq_all [ assign "front_left_door_is_open" (inr v1);
               assign "front_right_door_is_open" (inr v2);
               assign "back_left_door_is_open" (inr v3);
               assign "back_right_door_is_open" (inr v4);
               stmt_is_locked ]).
Proof.
  exists (fun _ =>
            ([ ("front_left_door_is_open", v1); ("front_right_door_is_open", v2);
               ("back_left_door_is_open", v3); ("back_right_door_is_open", v4);
               ("is_locked", py_not (py_or (py_or (py_or v1 v2) v3) v4)) ],
             inr tt)).
  split; [reflexivity | intros self; reflexivity].
Qed.

(** Lines 566-586 as one block: the EV range is copied from the total
    range the block has just assigned. *)
Lemma ranges_determined (E : result (value * value)) :
  determined (seq_all [call total_driving_range_setter E; stmt_ev_driving_range]).
Proof.
  destruct E as [e | [r u]].
  - exists (fun _ => ([], inl e)). split; reflexivity.
  - exists (fun engine_type =>
              if eq_engine engine_type EV
              then ([ ("_total_driving_range_value", r); ("_total_driving_range_unit", u);
                      ("_total_driving_range", r);
                      ("_ev_driving_range_value", r); ("_ev_driving_range_unit", u);
                      ("_ev_driving_range", r) ], inr tt)
              else ([ ("_total_driving_range_value", r); ("_total_driving_range_unit", u);
                      ("_total_driving_range", r) ], inr tt)).
    split.
    + intros engine_type. now destruct (eq_engine engine_type EV).
    + intros self. cbn [seq_all]. run_step.
      change (getattr (setattr (setattr (setattr self "_total_driving_range_value" r)
                                  "_total_driving_range_unit" u)
                         "_total_driving_range" r) "engine_type")
        with (getattr self "engine_type").
      now destruct (eq_engine (getattr self "engine_type") EV).
Qed.

(** The statements after the first: what they assign and how they end
    depend on the snapshot through the engine type alone. They do not
    mention the clock. *)
Lemma rest_determined (now : tzinfo -> datetime) (tz : tzinfo) (state : value) :
  determined (seq_all (skipn 1 (update_ccs2_body now tz state))).
Proof.
  set (R := skipn 1 (update_ccs2_body now tz state)).
  replace R with (firstn 11 R ++ firstn 5 (skipn 11 R) ++ firstn 18 (skipn 16 R)
                    ++ firstn 2 (skipn 34 R) ++ skipn 36 R)%list by reflexivity.
  subst R. cbv beta iota zeta delta [update_ccs2_body firstn skipn].
  apply determined_app; [determined_all |].
  apply determined_app; [apply doors_and_lock_determined |].
  apply determined_app; [determined_all |].
  apply determined_app; [apply ranges_determined |].
  determined_all.
Qed.

Lemma body_head_rest (now : tzinfo -> datetime) (tz : tzinfo) (state : value) :
  update_ccs2_body now tz state
  = (if truthy (get_child_value state "Date")
     then assign "last_updated_at" (parse_datetime (get_child_value state "Date") tz)
     else assign "last_updated_at" (inr (VDatetime (now tz))))
    :: skipn 1 (update_ccs2_body now tz state).
Proof. reflexivity. Qed.

Lemma rest_without_clock (now1 now2 : tzinfo -> datetime) (tz : tzinfo) (state : value) :
  skipn 1 (update_ccs2_body now2 tz state) = skipn 1 (update_ccs2_body now1 tz state).
Proof. reflexivity. Qed.

Lemma pass_determined (now : tzinfo -> datetime) (tz : tzinfo) (state : value) :
  determined (update_ccs2 now tz state).
Proof.
  unfold update_ccs2. rewrite body_head_rest.
  apply (determined_app [_]); [| apply rest_determined].
  apply determined_seq_all. constructor; [determined_tac | constructor].
Qed.

(** A determined body run again from the snapshot it left ends the same
    way and leaves the same snapshot. *)
Lemma determined_again (c : M unit) (self : Vehicle) :
  determined c ->
  snd (c (state_of (c self))) = snd (c self) /\
  same_snapshot (state_of (c (state_of (c self)))) (state_of (c self)).
Proof.
  intros (g & Hg & Hc).
  assert (getattr (state_of (c self)) "engine_type" = getattr self "engine_type") as He.
  { rewrite Hc. unfold state_of. cbn [fst]. now rewrite apply_writes_spec, Hg. }
  rewrite (Hc (state_of (c self))), He. split.
  - now rewrite (Hc self).
  - intros a. rewrite (Hc self). unfold state_of. cbn [fst].
    rewrite !apply_writes_spec.
    now destruct (last_write a (fst (g (getattr self "engine_type")))).
Qed.

(** C9, amended. Running the pass a second time with the same document
    and timezone ends as the first did and changes no field but,
    possibly, [last_updated_at]: that one too is unchanged when the
    document has a Date that is true, or when the clock reads the same
    both times; otherwise it is set from the clock again. *)
Theorem C9_second_pass
    (now1 now2 : tzinfo -> datetime) (tz : tzinfo) (state : value) (self : Vehicle) :
  let run1 := update_ccs2 now1 tz state self in
  let run2 := update_ccs2 now2 tz state (state_of run1) in
  snd run2 = snd run1 /\
  (forall a, a <> "last_updated_at" ->
             getattr (state_of run2) a = getattr (state_of run1) a) /\
  (truthy (get_child_value state "Date") = true \/ now2 tz = now1 tz ->
   same_snapshot (state_of run2) (state_of run1)).
Proof.
  intros run1 run2. subst run1 run2.
  assert (truthy (get_child_value state "Date") = true \/ now2 tz = now1 tz ->
          forall s, update_ccs2 now2 tz state s = update_ccs2 now1 tz state s) as Hsame.
  { intros H s. unfold update_ccs2.
    rewrite (body_head_rest now2), (body_head_rest now1), (rest_without_clock now1 now2).
    destruct H as [-> | ->]; reflexivity. }
  destruct (truthy (get_child_value state "Date")) eqn:Edate.
  - rewrite (Hsame (or_introl eq_refl)).
    destruct (determined_again _ self (pass_determined now1 tz state)) as [Ho Hs].
    repeat split; [exact Ho | intros a _; apply Hs | intros _; exact Hs].
  - assert (forall now s,
               update_ccs2 now tz state s
               = seq_all (skipn 1 (update_ccs2_body now1 tz state))
                   (setattr s "last_updated_at" (VDatetime (now tz)))) as Hrun.
    { intros now s. unfold update_ccs2.
      rewrite (body_head_rest now), (rest_without_clock now1 now), Edate. reflexivity. }
    destruct (rest_determined now1 tz state) as (g & Hg & HR).
    assert (forall v s, getattr (setattr s "last_updated_at" v) "engine_type"
                        = getattr s "engine_type") as Het by reflexivity.
    rewrite (Hrun now2), (Hrun now1). rewrite !HR, !Het.
    unfold state_of. cbn [fst snd]. rewrite apply_writes_spec, Hg, Het.
    split; [reflexivity |]. split.
    + intros a Ha. rewrite !apply_writes_spec.
      destruct (last_write a (fst (g (getattr self "engine_type")))) eqn:Ew;
        [reflexivity |].
      rewrite !getattr_setattr_other by (intros E; now apply Ha).
      now rewrite apply_writes_spec, Ew, getattr_setattr_other by (intros E; now apply Ha).
    + intros [H | H]; [discriminate H |]. rewrite H. intros a.
      rewrite !apply_writes_spec.
      destruct (last_write a (fst (g (getattr self "engine_type")))) eqn:Ew;
        [reflexivity |].
      destruct (String.eqb_spec "last_updated_at" a) as [<- | Ha].
      * now rewrite !getattr_setattr_same.
      * rewrite !getattr_setattr_other by exact Ha.
        now rewrite apply_writes_spec, Ew, getattr_setattr_other by exact Ha.
Qed.

End Properties.

(* ===================================================================== *)
(** ** Runs                                                                *)
(* ===================================================================== *)

Section Runs.
Import Sample.



(** C1 fails as stated: Electronics.Battery.Level is absent from the
    document and the pass, which returns, replaces the battery level 80
    of the snapshot by [None]. *)
Lemma C1_counterexample :
  get_child_value status_ok "Electronics.Battery.Level" = VNone /\
  getattr earlier "car_battery_percentage" = VInt 80 /\
  snd (update_ccs2 clock1 berlin status_ok earlier) = inr tt /\
  getattr (state_of (update_ccs2 clock1 berlin status_ok earlier))
    "car_battery_percentage" = VNone.
Proof. repeat split; vm_compute; reflexivity. Qed.

(** A run of [C1_absent_source]: with the front defog code absent the
    toggle stays True, and the absent battery level becomes [None]. *)
Lemma C1_witness :
  get_child_value (status_with None) "Body.Windshield.Front.Defog.State" = VNone /\
  getattr earlier "defrost_is_on" = VBool true /\
  getattr (state_of (update_ccs2 clock1 berlin (status_with None) earlier))
    "defrost_is_on" = VBool true /\
  getattr (state_of (update_ccs2 clock1 berlin (status_with None) earlier))
    "car_battery_percentage" = VNone.
Proof.
  assert (get_child_value (status_with None) "Body.Windshield.Front.Defog.State" = VNone)
    as Hdefog by (vm_compute; reflexivity).
  assert (returns (update_ccs2 clock1 berlin (status_with None) earlier)) as Hret
    by (exists tt; vm_compute; reflexivity).
  destruct (C1_absent_source clock1 berlin (status_with None) earlier)
    as (Htri & _ & Hpass & _).
  split; [exact Hdefog |]. split; [reflexivity |]. split.
  - rewrite (Htri _ _ (or_introl eq_refl) Hdefog). reflexivity.
  - apply (Hpass "Electronics.Battery.Level");
      [now left | vm_compute; reflexivity | now apply returns_gets_to].
Defined.




(** Runs of [C4_tri_state_decoding] over the codes 0, 1, 2, 3 and an
    absent one, from a snapshot where the toggle is True. *)
Lemma C4_witness :
  getattr earlier "defrost_is_on" = VBool true /\
  getattr (state_of (update_ccs2 clock1 berlin (status_with (Some (VInt 0))) earlier))
    "defrost_is_on" = VBool false /\
  getattr (state_of (update_ccs2 clock1 berlin (status_with (Some (VInt 1)))
                       (setattr earlier "defrost_is_on" (VBool false))))
    "defrost_is_on" = VBool true /\
  getattr (state_of (update_ccs2 clock1 berlin (status_with (Some (VInt 2))) earlier))
    "defrost_is_on" = VBool false /\
  getattr (state_of (update_ccs2 clock1 berlin (status_with (Some (VInt 3))) earlier))
    "defrost_is_on" = VBool true /\
  getattr (state_of (update_ccs2 clock1 berlin (status_with None) earlier))
    "defrost_is_on" = VBool true.
Proof.
  pose (field := or_introl eq_refl
                 : In ("Body.Windshield.Front.Defog.State", "defrost_is_on")
                      tri_state_fields).
  pose proof (fun state self => C4_tri_state_decoding clock1 berlin state self _ _ field)
    as decode.
  cbv zeta in decode.
  split; [reflexivity |]. split; [| split; [| split; [| split]]].
  - apply (proj1 (decode _ _));
      [apply returns_gets_to; exists tt; vm_compute; reflexivity
      | left; vm_compute; reflexivity].
  - apply (proj1 (proj2 (decode _ _)));
      [apply returns_gets_to; exists tt; vm_compute; reflexivity
      | vm_compute; reflexivity].
  - apply (proj1 (decode _ _));
      [apply returns_gets_to; exists tt; vm_compute; reflexivity
      | right; vm_compute; reflexivity].
  - pose proof (proj2 (proj2 (proj2 (decode (status_with (Some (VInt 3))) earlier))))
      as other.
    rewrite other; [reflexivity |].
    right. exists 3. split; [vm_compute; reflexivity | lia].
  - pose proof (proj2 (proj2 (proj2 (decode (status_with None) earlier)))) as absent.
    rewrite absent; [reflexivity |].
    left. vm_compute. reflexivity.
Defined.


(** A run of [C6_is_locked_from_doors]: the right rear door is open, so
    the vehicle is not locked. *)
Lemma C6_witness :
  returns (update_ccs2 clock1 berlin status_ok earlier) /\
  getattr (state_of (update_ccs2 clock1 berlin status_ok earlier))
    "back_right_door_is_open" = VBool true /\
  getattr (state_of (update_ccs2 clock1 berlin status_ok earlier)) "is_locked"
  = VBool false.
Proof.
  assert (returns (update_ccs2 clock1 berlin status_ok earlier)) as Hret
    by (exists tt; vm_compute; reflexivity).
  destruct (C6_is_locked_from_doors clock1 berlin status_ok earlier
              (returns_gets_to _ _ _ _ _ Hret))
    as (_ & _ & _ & Hbr & _ & _ & Hopen).
  split; [exact Hret |]. split.
  - rewrite Hbr. vm_compute. reflexivity.
  - apply Hopen. right. right. right. rewrite Hbr. vm_compute. reflexivity.
Defined.


(** C8 fails as stated: the latitude path is present (0.0, on the
    equator) and Location.TimeStamp is absent, the pass returns, and the
    location triple is not written: the recorded time is still that of
    the earlier fix, not 2000-01-01. *)
Lemma C8_counterexample :
  get_child_value status_equator "Location.GeoCoord.Latitude" = VFloat (S754_zero false) /\
  get_child_value status_equator "Location.TimeStamp" = VNone /\
  snd (update_ccs2 clock1 berlin status_equator earlier) = inr tt /\
  location_of (state_of (update_ccs2 clock1 berlin status_equator earlier))
  = location_of earlier /\
  getattr (state_of (update_ccs2 clock1 berlin status_equator earlier))
    "_location_last_set_time"
  = VDatetime (mk_datetime 2024 5 16 8 0 0 berlin).
Proof. repeat split; vm_compute; reflexivity. Qed.

(** A run of [C8_location_written_when_latitude_true]: latitude 10.5 and
    no Location.TimeStamp. *)
Lemma C8_witness :
  location_of (state_of (update_ccs2 clock1 berlin status_ok earlier))
  = (VFloat (float_lit 105 (-1)), VFloat (float_lit 134 (-1)),
     VDatetime (mk_datetime 2000 1 1 0 0 0 berlin)).
Proof.
  destruct (C8_location_written_when_latitude_true clock1 berlin status_ok earlier)
    as (_ & _ & _ & Hdefault).
  rewrite Hdefault; [vm_compute; reflexivity | vm_compute; reflexivity | |
                     vm_compute; reflexivity].
  apply returns_gets_to. exists tt. vm_compute. reflexivity.
Defined.

(** C9 fails as stated: the document has no Date, both passes return,
    and the second one, five minutes later, changes [last_updated_at]. *)
Lemma C9_counterexample :
  get_child_value status_no_date "Date" = VNone /\
  snd (update_ccs2 clock1 berlin status_no_date earlier) = inr tt /\
  getattr (state_of (update_ccs2 clock1 berlin status_no_date earlier)) "last_updated_at"
  = VDatetime (mk_datetime 2024 5 17 10 0 0 berlin) /\
  getattr (state_of (update_ccs2 clock2 berlin status_no_date
                       (state_of (update_ccs2 clock1 berlin status_no_date earlier))))
    "last_updated_at"
  = VDatetime (mk_datetime 2024 5 17 10 5 0 berlin).
Proof. repeat split; vm_compute; reflexivity. Qed.

(** A run of [C9_second_pass]: with a Date in the document the second
    pass, five minutes later, leaves the same snapshot. *)
Lemma C9_witness :
  same_snapshot
    (state_of (update_ccs2 clock2 berlin status_ok
                 (state_of (update_ccs2 clock1 berlin status_ok earlier))))
    (state_of (update_ccs2 clock1 berlin status_ok earlier)).
Proof.
  apply (proj2 (proj2 (C9_second_pass clock1 clock2 berlin status_ok earlier))).
  left. vm_compute. reflexivity.
Defined.

(** Runs of [C10_plugged_in_is_connector_fastening]: the current-level
    state is 1, the connector state is 0, and the field is 0, in a pass
    that returns and in one that raises later, at line 567. *)
Lemma C10_witness :
  get_child_value status_ok "Green.ChargingInformation.ElectricCurrentLevel.State"
  = VInt 1 /\
  returns (update_ccs2 clock1 berlin status_ok earlier) /\
  getattr (state_of (update_ccs2 clock1 berlin status_ok earlier))
    "ev_battery_is_plugged_in" = VInt 0 /\
  raises (update_ccs2 clock1 berlin status_no_total earlier) /\
  getattr (state_of (update_ccs2 clock1 berlin status_no_total earlier))
    "ev_battery_is_plugged_in" = VInt 0.
Proof.
  assert (returns (update_ccs2 clock1 berlin status_ok earlier)) as Hret
    by (exists tt; vm_compute; reflexivity).
  assert (gets_to "ev_battery_is_plugged_in" clock1 berlin status_no_total earlier) as Hto
    by (exists tt; vm_compute; reflexivity).
  split; [vm_compute; reflexivity |]. split; [exact Hret |]. split; [| split].
  - rewrite (C10_plugged_in_is_connector_fastening clock1 berlin status_ok earlier
               (returns_gets_to _ _ _ _ _ Hret)).
    vm_compute. reflexivity.
  - exists TypeError. vm_compute. reflexivity.
  - rewrite (C10_plugged_in_is_connector_fastening clock1 berlin status_no_total earlier Hto).
    vm_compute. reflexivity.
Defined.

End Runs.

(* ===================================================================== *)
(** ** More of Vehicle.py                                                  *)
(* ===================================================================== *)

Section Further.
Context {U : utils} {C : const} {P : parsers}.

Lemma returns_not_raises {A : Type} (r : Vehicle * result A) :
  returns r -> raises r -> False.
Proof. intros [x Hx] [e He]. rewrite Hx in He. discriminate He. Qed.

Lemma existsb_eqb_In (a : string) (ns : list string) :
  existsb (fun n => String.eqb n a) ns = true <-> In a ns.
Proof.
  rewrite existsb_exists. split.
  - intros (n & Hin & E). apply String.eqb_eq in E. now subst.
  - intros Hin. exists a. split; [exact Hin | apply String.eqb_refl].
Qed.

Lemma unassigned_not_In (a : string) (names : list (list string)) :
  unassigned a names = true <-> ~ In a (List.concat names).
Proof.
  induction names as [| ns names IH]; cbn [unassigned forallb List.concat].
  - split; [intros _ [] | reflexivity].
  - rewrite andb_true_iff, negb_true_iff, in_app_iff.
    fold (unassigned a names). rewrite IH. split.
    + intros [Hn Hr] [Hin | Hin]; [| now apply Hr].
      apply existsb_eqb_In in Hin. congruence.
    + intros H. split; [| tauto].
      destruct (existsb _ ns) eqn:E; [| reflexivity].
      apply existsb_eqb_In in E. tauto.
Qed.

(** The whole pass, and each part of it cut at a statement, leaves an
    attribute that its statements do not assign. *)
Lemma pass_keeps (a : string) (now : tzinfo -> datetime) (tz : tzinfo) (state : value) :
  unassigned a update_ccs2_assigns = true -> keeps a (update_ccs2 now tz state).
Proof.
  intros Hu. apply seq_all_keeps, (unassigned_keeps a update_ccs2_assigns); [| exact Hu].
  apply body_assigns.
Qed.

Lemma prefix_keeps (n : nat) (a : string)
    (now : tzinfo -> datetime) (tz : tzinfo) (state : value) :
  unassigned a (firstn n update_ccs2_assigns) = true ->
  keeps a (seq_all (firstn n (update_ccs2_body now tz state))).
Proof.
  intros Hu.
  apply seq_all_keeps, (unassigned_keeps a (firstn n update_ccs2_assigns)); [| exact Hu].
  apply Forall2_take, body_assigns.
Qed.

(** A sequence ends where its first raising statement ends. *)
Lemma seq_all_raised (pre post : list (M unit)) (self : Vehicle) :
  raises (seq_all pre self) -> seq_all (pre ++ post) self = seq_all pre self.
Proof.
  intros [e He]. rewrite seq_all_app. unfold bind.
  destruct (seq_all pre self) as [s1 r]; cbn [snd] in He. now subst r.
Qed.

Lemma seq_all_stops (pre : list (M unit)) (c : M unit) (post : list (M unit))
    (self : Vehicle) :
  returns (seq_all pre self) ->
  raises (c (state_of (seq_all pre self))) ->
  seq_all (pre ++ c :: post) self = c (state_of (seq_all pre self)).
Proof.
  intros [x Hx] Hc. rewrite seq_all_app. unfold bind, state_of in *.
  destruct (seq_all pre self) as [s1 r]; cbn [fst snd] in *. subst r.
  now apply seq_cons_raises.
Qed.

Lemma pass_stops (n : nat) (c : M unit)
    (now : tzinfo -> datetime) (tz : tzinfo) (state : value) (self : Vehicle) :
  nth_error (update_ccs2_body now tz state) n = Some c ->
  returns (seq_all (firstn n (update_ccs2_body now tz state)) self) ->
  raises (c (state_of (seq_all (firstn n (update_ccs2_body now tz state)) self))) ->
  update_ccs2 now tz state self
  = c (state_of (seq_all (firstn n (update_ccs2_body now tz state)) self)).
Proof.
  intros Hn Hpre Hc. unfold update_ccs2.
  rewrite (nth_error_cut _ _ _ Hn) at 1. now apply seq_all_stops.
Qed.

(** A pass that raises at statement [n] without assigning there leaves
    the snapshot the statements before [n] have left. *)
Lemma pass_stops_clean (n : nat) (c : M unit) (e : exn)
    (now : tzinfo -> datetime) (tz : tzinfo) (state : value) (self : Vehicle) :
  nth_error (update_ccs2_body now tz state) n = Some c ->
  returns (seq_all (firstn n (update_ccs2_body now tz state)) self) ->
  (forall s, c s = (s, inl e)) ->
  snd (update_ccs2 now tz state self) = inl e /\
  forall a, unassigned a (firstn n update_ccs2_assigns) = true ->
            getattr (state_of (update_ccs2 now tz state self)) a = getattr self a.
Proof.
  intros Hn Hpre Hc.
  rewrite (pass_stops n c now tz state self Hn Hpre)
    by (rewrite Hc; now exists e).
  rewrite Hc. split; [reflexivity |].
  intros a Hu. cbn [state_of fst]. now apply (prefix_keeps n a now tz state).
Qed.

(** *** Lines 427-694: what the pass leaves alone *)

(** X1. [update_ccs2] changes no attribute outside the ones its
    statements assign, whether it returns or raises. Among the fields of
    the dataclass these are the ones listed in [never_assigned]: the
    identity fields, the geocode, the timezone, the trouble codes, the
    side-mirror heater, the service distances, the consumption and trip
    data, [ev_battery_is_charging], the departure days and times, the
    off-peak settings, the fuel driving range and the engine type. Every
    attribute the pass assigns is a field of the dataclass. *)
Theorem update_ccs2_leaves_the_other_fields
    (now : tzinfo -> datetime) (tz : tzinfo) (state : value) (self : Vehicle) :
  let run := update_ccs2 now tz state self in
  (forall a, ~ In a (List.concat update_ccs2_assigns) ->
             getattr (state_of run) a = getattr self a) /\
  (forall a, In a never_assigned -> getattr (state_of run) a = getattr self a) /\
  (forall a, In a Vehicle_fields ->
             In a never_assigned <-> ~ In a (List.concat update_ccs2_assigns)) /\
  incl (List.concat update_ccs2_assigns) Vehicle_fields.
Proof.
  intros run. subst run.
  assert (forall a, In a never_assigned -> unassigned a update_ccs2_assigns = true) as Hnever.
  { apply forallb_forall. vm_compute. reflexivity. }
  split; [| split; [| split]].
  - intros a Ha. apply pass_keeps. now apply unassigned_not_In.
  - intros a Ha. apply pass_keeps. now apply Hnever.
  - intros a Ha. split.
    + intros Hin. apply unassigned_not_In. now apply Hnever.
    + intros Hout. apply unassigned_not_In in Hout.
      assert (forallb (fun a => implb (unassigned a update_ccs2_assigns)
                                  (existsb (fun n => String.eqb n a) never_assigned))
                Vehicle_fields = true) as Hall by (vm_compute; reflexivity).
      pose proof (proj1 (forallb_forall _ _) Hall a Ha) as H. cbv beta in H.
      rewrite Hout in H. now apply existsb_eqb_In.
  - intros a Ha.
    assert (forallb (fun a => existsb (fun n => String.eqb n a) Vehicle_fields)
              (List.concat update_ccs2_assigns) = true) as Hall by (vm_compute; reflexivity).
    apply existsb_eqb_In. exact (proj1 (forallb_forall _ _) Hall a Ha).
Qed.

(** *** Line 694: the raw document *)

(** X2. [data] holds the document of the last pass that returned: a pass
    that returns stores its document there, and a pass that raises
    leaves [data] as it was, since the assignment is the last statement
    of the body. *)
Theorem data_is_stored_last
    (now : tzinfo -> datetime) (tz : tzinfo) (state : value) (self : Vehicle) :
  let run := update_ccs2 now tz state self in
  (returns run -> getattr (state_of run) "data" = state) /\
  (raises run -> getattr (state_of run) "data" = getattr self "data").
Proof.
  intros run. subst run. split.
  - intros Hret. apply (assigned_value 56); [reflexivity | reflexivity |].
    exact (returns_gets_to "data" now tz state self Hret).
  - intros Hr.
    destruct (returns_or_raises (seq_all (firstn 56 (update_ccs2_body now tz state)) self))
      as [Hpre | Hpre].
    + exfalso. apply (returns_not_raises _ (A := unit)) with (2 := Hr).
      unfold update_ccs2.
      rewrite (nth_error_cut (update_ccs2_body now tz state) 56 _ eq_refl).
      rewrite seq_all_app. unfold bind.
      destruct Hpre as [[] Hx].
      destruct (seq_all (firstn 56 (update_ccs2_body now tz state)) self) as [s1 r].
      cbn [snd] in Hx. subst r. apply returns_inr.
    + unfold update_ccs2.
      rewrite <- (firstn_skipn 56 (update_ccs2_body now tz state)).
      rewrite (seq_all_raised _ _ _ Hpre).
      now apply (prefix_keeps 56 "data" now tz state).
Qed.

(** *** Lines 428-433: the time of the update *)

(** X3. [last_updated_at] comes from the document's Date when that is
    true and from the clock otherwise (an absent Date, an empty one):
    the field then holds [parse_datetime(Date, timezone)], or
    [datetime.now(timezone)], in every run, also one that raises later.
    When [parse_datetime] raises, the pass raises the same exception and
    leaves the snapshot as it was: nothing is assigned before the
    first statement. *)
Theorem last_updated_at_from_date_or_clock
    (now : tzinfo -> datetime) (tz : tzinfo) (state : value) (self : Vehicle) :
  let run := update_ccs2 now tz state self in
  let date := get_child_value state "Date" in
  (truthy date = false ->
   getattr (state_of run) "last_updated_at" = VDatetime (now tz)) /\
  (truthy date = true -> forall t, parse_datetime date tz = inr t ->
   getattr (state_of run) "last_updated_at" = t) /\
  (truthy date = true -> forall e, parse_datetime date tz = inl e ->
   run = (self, inl e)).
Proof.
  intros run date. subst run date.
  assert (returns (seq_all (firstn 0 (update_ccs2_body now tz state)) self)) as Hpre
    by apply returns_inr.
  split; [| split].
  - intros Hd.
    rewrite (attr_upto 0 "last_updated_at" _ now tz state self eq_refl eq_refl Hpre).
    rewrite Hd. apply getattr_setattr_same.
  - intros Hd t Ht.
    rewrite (attr_upto 0 "last_updated_at" _ now tz state self eq_refl eq_refl Hpre).
    rewrite Hd. run_step. rewrite Ht. apply getattr_setattr_same.
  - intros Hd e He. unfold update_ccs2. rewrite body_head_rest, Hd.
    rewrite seq_cons_raises; run_step; rewrite He; [reflexivity | now exists e].
Qed.

(** *** Lines 435-438: the odometer *)

(** X4. The odometer is stored in the unit [DISTANCE_UNITS[1]], whatever
    unit the document names for its distances: once the pass has got to
    line 435, it holds [get_float] of the reading with that unit, and
    the getters [odometer] and [odometer_unit] answer the two. When
    [get_float] raises on the reading the pass raises, and the odometer
    is as it was before the pass. *)
Theorem odometer_in_the_first_distance_unit
    (now : tzinfo -> datetime) (tz : tzinfo) (state : value) (self : Vehicle) :
  let run := update_ccs2 now tz state self in
  let reading := get_child_value state "Drivetrain.Odometer" in
  (forall f u, get_float reading = inr f -> subscript DISTANCE_UNITS (VInt 1) = inr u ->
               gets_to "_odometer" now tz state self ->
               composite_of (state_of run) "_odometer" = (f, u, f) /\
               Get.odometer (state_of run) = (state_of run, inr f) /\
               Get.odometer_unit (state_of run) = (state_of run, inr u)) /\
  (forall e, get_float reading = inl e ->
             raises run /\
             composite_of (state_of run) "_odometer" = composite_of self "_odometer").
Proof.
  intros run reading. subst run reading. split.
  - intros f u Ef Eu Hto.
    assert (returns (seq_all (firstn 1 (update_ccs2_body now tz state)) self)) as Hpre
      by exact Hto.
    assert (composite_of (state_of (update_ccs2 now tz state self)) "_odometer" = (f, u, f))
      as E.
    { unfold composite_of. cbn [append].
      rewrite (attr_upto 1 "_odometer_value" _ now tz state self eq_refl eq_refl Hpre).
      rewrite (attr_upto 1 "_odometer_unit" _ now tz state self eq_refl eq_refl Hpre).
      rewrite (attr_upto 1 "_odometer" _ now tz state self eq_refl eq_refl Hpre).
      run_step. rewrite Eu. cbv beta iota. rewrite Ef. reflexivity. }
    split; [exact E |].
    unfold composite_of in E. cbn [append] in E. injection E as _ Eunit Evalue.
    unfold Get.odometer, Get.odometer_unit, read. now rewrite Eunit, Evalue.
  - intros e Ee. split.
    + destruct (returns_or_raises (update_ccs2 now tz state self)) as [Hret | Hr];
        [| exact Hr].
      destruct (statement_returned 1 _ now tz state self eq_refl Hret) as (s1 & Hs1).
      exfalso. revert Hs1. run_step.
      destruct (subscript DISTANCE_UNITS (VInt 1)); cbv beta iota;
        [| rewrite Ee]; apply returns_inl.
    + unfold composite_of. cbn [append].
      rewrite !(attr_kept 1 _ _ now tz state eq_refl); try reflexivity;
        intros s; run_step;
        (destruct (subscript DISTANCE_UNITS (VInt 1)); cbv beta iota;
         [| rewrite Ee]; reflexivity).
Qed.

(** *** Lines 566-579: the total range *)

(** X5. When the pair of line 566 cannot be built ([float] of the
    DTE.Total reading raises, as it does on an absent one, or
    [DISTANCE_UNITS] has no entry for DTE.Unit), a pass that has got
    there raises that exception and stops: every attribute that no
    earlier statement assigns is as it was before the pass, among them
    the total and the EV range, the charge durations and limits, the
    target ranges, the fluid and fuel fields, the location and [data]. *)
Theorem failed_total_range_stops_the_pass
    (now : tzinfo -> datetime) (tz : tzinfo) (state : value) (self : Vehicle) (e : exn) :
  tuple2 (py_float (get_child_value state "Drivetrain.FuelSystem.DTE.Total"))
         (subscript DISTANCE_UNITS (get_child_value state "Drivetrain.FuelSystem.DTE.Unit"))
  = inl e ->
  gets_to "_total_driving_range" now tz state self ->
  let run := update_ccs2 now tz state self in
  snd run = inl e /\
  (forall a, not_assigned_before "_total_driving_range" a = true ->
             getattr (state_of run) a = getattr self a) /\
  composite_of (state_of run) "_total_driving_range"
  = composite_of self "_total_driving_range" /\
  location_of (state_of run) = location_of self /\
  getattr (state_of run) "data" = getattr self "data".
Proof.
  intros He Hto run. subst run.
  destruct (pass_stops_clean 35 _ e now tz state self eq_refl Hto) as (Hout & Hkeep).
  { intros s. unfold call, bind, lift. now rewrite He. }
  split; [exact Hout | split; [exact Hkeep |]].
  unfold composite_of, location_of. cbn [append].
  now rewrite !Hkeep by reflexivity.
Qed.

(** *** Lines 427-694: when the pass returns *)


(** *** Lines 581-587: the EV range of a car that is no pure EV *)

(** A snapshot that is not of a pure EV keeps its EV range. *)
Lemma ev_range_kept
    (now : tzinfo -> datetime) (tz : tzinfo) (state : value) (self : Vehicle) :
  eq_engine (getattr self "engine_type") EV = false ->
  composite_of (state_of (update_ccs2 now tz state self)) "_ev_driving_range"
  = composite_of self "_ev_driving_range".
Proof.
  intros Hev.
  assert (forall a, unassigned a (firstn 36 update_ccs2_assigns) = true ->
                    unassigned a (skipn 37 update_ccs2_assigns) = true ->
                    getattr (state_of (update_ccs2 now tz state self)) a = getattr self a)
    as Hkeep.
  { intros a Hbefore Hafter.
    destruct (returns_or_raises (seq_all (firstn 36 (update_ccs2_body now tz state)) self))
      as [Hpre | Hpre].
    - rewrite (attr_upto 36 a _ now tz state self eq_refl Hafter Hpre).
      set (s36 := state_of (seq_all (firstn 36 (update_ccs2_body now tz state)) self)).
      assert (getattr s36 "engine_type" = getattr self "engine_type") as Hengine
        by (now apply (prefix_keeps 36 "engine_type" now tz state)).
      unfold stmt_ev_driving_range, bind, read, ret, state_of. cbn [fst snd].
      rewrite Hengine, Hev. now apply (prefix_keeps 36 a now tz state).
    - unfold update_ccs2.
      rewrite <- (firstn_skipn 36 (update_ccs2_body now tz state)).
      rewrite (seq_all_raised _ _ _ Hpre).
      now apply (prefix_keeps 36 a now tz state). }
  unfold composite_of. cbn [append]. now rewrite !Hkeep by reflexivity.
Qed.

(** X7. When the engine type of the snapshot is not
    [ENGINE_TYPES.EV] (a hybrid, a combustion engine, or an engine type
    that is still [None]), the pass leaves the EV range, value and unit,
    as it was, in a run that returns and in one that raises; and the
    pass does not assign the engine type. So on a freshly constructed
    [Vehicle], whose engine type is [None], the EV range is [None] after
    the pass as before it. *)
Theorem ev_range_kept_unless_pure_ev
    (now : tzinfo -> datetime) (tz : tzinfo) (state : value) (self : Vehicle) :
  let run := update_ccs2 now tz state in
  (eq_engine (getattr self "engine_type") EV = false ->
   composite_of (state_of (run self)) "_ev_driving_range"
   = composite_of self "_ev_driving_range") /\
  getattr (state_of (run self)) "engine_type" = getattr self "engine_type" /\
  composite_of (state_of (run Vehicle_default)) "_ev_driving_range" = (VNone, VNone, VNone).
Proof.
  intros run. subst run. split; [| split].
  - apply ev_range_kept.
  - now apply pass_keeps.
  - now rewrite ev_range_kept.
Qed.

(** *** Lines 593-608: the charge durations *)

(** X8. Each of the four charge durations is stored as the resolver's
    answer with the unit "m": once the pass has got to its statement
    (as every pass that returns has), value and unit are the reading and
    "m", also when the reading is absent ([None] with the unit "m"). *)
Theorem charge_durations_in_minutes
    (now : tzinfo -> datetime) (tz : tzinfo) (state : value) (self : Vehicle)
    (p a : string) :
  In (p, a) charge_duration_fields ->
  gets_to a now tz state self ->
  composite_of (state_of (update_ccs2 now tz state self)) a
  = (get_child_value state p, VStr "m", get_child_value state p).
Proof.
  intros Hin. cbn [charge_duration_fields In] in Hin.
  destruct Hin as [H | [H | [H | [H | []]]]]; injection H as <- <-; intros Hto;
    unfold composite_of; cbn [append];
    match goal with
    | |- (getattr _ ?v, getattr _ ?u, getattr _ ?a) = _ =>
        let n := eval vm_compute in (statement_index a) in
        assert (returns (seq_all (firstn n (update_ccs2_body now tz state)) self)) as Hpre
          by exact Hto;
        rewrite (attr_upto n v _ now tz state self eq_refl eq_refl Hpre);
        rewrite (attr_upto n u _ now tz state self eq_refl eq_refl Hpre);
        rewrite (attr_upto n a _ now tz state self eq_refl eq_refl Hpre)
    end;
    reflexivity.
Qed.

(** *** Lines 566-579 and 618-641: the distance unit of the document *)

(** X9. The total range and the two target ranges are stored in one
    unit, [DISTANCE_UNITS] at the document's DTE.Unit: a pass that has
    got to line 630 has found that unit and the total as a float, the
    total range holds that float and each target range holds the
    resolver's answer as it is (not converted, [None] when absent),
    all three with that unit. *)
Theorem ranges_share_the_unit_of_the_document
    (now : tzinfo -> datetime) (tz : tzinfo) (state : value) (self : Vehicle) :
  gets_to "_ev_target_range_charge_DC" now tz state self ->
  let after := state_of (update_ccs2 now tz state self) in
  exists total unit,
    py_float (get_child_value state "Drivetrain.FuelSystem.DTE.Total") = inr total /\
    subscript DISTANCE_UNITS (get_child_value state "Drivetrain.FuelSystem.DTE.Unit")
    = inr unit /\
    composite_of after "_total_driving_range" = (total, unit, total) /\
    (forall p a, In (p, a) target_range_fields ->
                 composite_of after a
                 = (get_child_value state p, unit, get_child_value state p)).
Proof.
  intros Hto after. subst after.
  assert (returns (seq_all (firstn 46 (update_ccs2_body now tz state)) self)) as H46
    by exact Hto.
  assert (returns (seq_all (firstn 45 (update_ccs2_body now tz state)) self)) as H45
    by (now apply (prefix_returns 45 46); [lia |]).
  assert (returns (seq_all (firstn 35 (update_ccs2_body now tz state)) self)) as H35
    by (now apply (prefix_returns 35 46); [lia |]).
  assert (exists r u,
             py_float (get_child_value state "Drivetrain.FuelSystem.DTE.Total") = inr r /\
             subscript DISTANCE_UNITS (get_child_value state "Drivetrain.FuelSystem.DTE.Unit")
             = inr u) as (r & u & Er & Eu).
  { destruct (statement_returned_list (firstn 46 (update_ccs2_body now tz state)) 35 _ self
                eq_refl H46) as (s0 & Hs0).
    revert Hs0. run_step.
    destruct (py_float _) as [e | r];
      [intros Hs0; now apply returns_inl in Hs0 |].
    destruct (subscript _ _) as [e | u];
      [intros Hs0; now apply returns_inl in Hs0 | now exists r, u]. }
  exists r, u. split; [exact Er | split; [exact Eu | split]].
  - unfold composite_of. cbn [append].
    rewrite (attr_upto 35 "_total_driving_range_value" _ now tz state self eq_refl eq_refl H35).
    rewrite (attr_upto 35 "_total_driving_range_unit" _ now tz state self eq_refl eq_refl H35).
    rewrite (attr_upto 35 "_total_driving_range" _ now tz state self eq_refl eq_refl H35).
    run_step. rewrite Er, Eu. reflexivity.
  - intros p a Hin. cbn [target_range_fields In] in Hin.
    destruct Hin as [H | [H | []]]; injection H as <- <-;
      unfold composite_of; cbn [append].
    + rewrite (attr_upto 45 "_ev_target_range_charge_AC_value" _ now tz state self
                 eq_refl eq_refl H45).
      rewrite (attr_upto 45 "_ev_target_range_charge_AC_unit" _ now tz state self
                 eq_refl eq_refl H45).
      rewrite (attr_upto 45 "_ev_target_range_charge_AC" _ now tz state self
                 eq_refl eq_refl H45).
      run_step. rewrite Eu. reflexivity.
    + rewrite (attr_upto 46 "_ev_target_range_charge_DC_value" _ now tz state self
                 eq_refl eq_refl H46).
      rewrite (attr_upto 46 "_ev_target_range_charge_DC_unit" _ now tz state self
                 eq_refl eq_refl H46).
      rewrite (attr_upto 46 "_ev_target_range_charge_DC" _ now tz state self
                 eq_refl eq_refl H46).
      run_step. rewrite Eu. reflexivity.
Qed.

(** *** Lines 439-444 and 491-672: the plain and the coerced fields *)

(** X10. Once the pass has got to its assignment (as every pass that
    returns has), each field assigned outright holds the resolver's
    answer for its path exactly as given, with no decoding
    ([air_control_is_on], for one, holds the blower speed level
    itself), and each field assigned through [bool] holds the truth
    value of the answer. *)
Theorem plain_fields_hold_the_answer
    (now : tzinfo -> datetime) (tz : tzinfo) (state : value) (self : Vehicle) :
  let after := state_of (update_ccs2 now tz state self) in
  (forall p a, In (p, a) pass_through_fields -> gets_to a now tz state self ->
               getattr after a = get_child_value state p) /\
  (forall p a, In (p, a) coerced_fields -> gets_to a now tz state self ->
               getattr after a = VBool (truthy (get_child_value state p))).
Proof.
  intros after. subst after. split.
  - intros p a Hin Hto. now apply pass_through_value.
  - intros p a Hin Hto. now apply coerced_value.
Qed.

(** *** Lines 283-308 and 674-692: reading the location back *)

Lemma is_None_false (v : value) : v <> VNone -> is_None v = false.
Proof. destruct v; [contradiction | reflexivity ..]. Qed.

(** X11. The getter [location] answers (longitude, latitude), the
    reverse of the order in which the setter takes them: after
    [location = (lat, lon, t)] it answers [(lon, lat)]. After a pass
    over a document whose latitude is true, that has got to line 688
    with the time [t] of the fix, [location] answers the document's
    (Longitude, Latitude), and [location_latitude],
    [location_longitude] and [location_last_updated_at] answer the
    latitude, the longitude and [t]. *)
Theorem location_reads_longitude_first
    (now : tzinfo -> datetime) (tz : tzinfo) (state : value) (self : Vehicle) :
  (forall lat lon t,
     let set := state_of (location_setter (lat, lon, t) self) in
     (location_setter (lat, lon, t) ;; Get.location) self = (set, inr (lon, lat))) /\
  (forall t,
     truthy (get_child_value state "Location.GeoCoord.Latitude") = true ->
     location_last_updated_at tz state = inr t ->
     gets_to "_location_latitude" now tz state self ->
     let after := state_of (update_ccs2 now tz state self) in
     let latitude := get_child_value state "Location.GeoCoord.Latitude" in
     let longitude := get_child_value state "Location.GeoCoord.Longitude" in
     Get.location after = (after, inr (longitude, latitude)) /\
     Get.location_latitude after = (after, inr latitude) /\
     Get.location_longitude after = (after, inr longitude) /\
     Get.location_last_updated_at after = (after, inr t)).
Proof.
  split.
  - intros lat lon t set. subst set. reflexivity.
  - intros t Hlat Et Hto after latitude longitude. subst after latitude longitude.
    pose proof (location_written now tz state self t Hlat Hto Et) as E.
    unfold location_of in E. injection E as Elat Elon Et'.
    unfold Get.location, Get.location_latitude, Get.location_longitude,
      Get.location_last_updated_at, bind, read, ret.
    now rewrite Elat, Elon, Et'.
Qed.

(** X12. The time of the fix. When the latitude is true and the
    document has a Location.TimeStamp, the pass, once it has got to
    line 674, stores as the time of the fix the datetime built from
    [int] of Year, Mon, Day, Hour, Min and Sec in the given timezone.
    When that datetime cannot be built (a component is missing, so that
    [int(None)] raises TypeError, or they name no date), the pass raises
    that exception and neither the location nor [data] is updated. *)
Theorem fix_time_from_the_timestamp
    (now : tzinfo -> datetime) (tz : tzinfo) (state : value) (self : Vehicle) :
  let run := update_ccs2 now tz state self in
  let timestamp := get_child_value state "Location.TimeStamp" in
  let latitude := get_child_value state "Location.GeoCoord.Latitude" in
  let longitude := get_child_value state "Location.GeoCoord.Longitude" in
  truthy latitude = true ->
  gets_to "_location_latitude" now tz state self ->
  (timestamp <> VNone ->
   forall y mo d h mi s t,
     py_int (get_child_value timestamp "Year") = inr y ->
     py_int (get_child_value timestamp "Mon") = inr mo ->
     py_int (get_child_value timestamp "Day") = inr d ->
     py_int (get_child_value timestamp "Hour") = inr h ->
     py_int (get_child_value timestamp "Min") = inr mi ->
     py_int (get_child_value timestamp "Sec") = inr s ->
     datetime_new y mo d h mi s tz = inr t ->
     t = mk_datetime y mo d h mi s tz /\
     location_of (state_of run) = (latitude, longitude, VDatetime t)) /\
  (forall e, location_last_updated_at tz state = inl e ->
             snd run = inl e /\
             location_of (state_of run) = location_of self /\
             getattr (state_of run) "data" = getattr self "data") /\
  (timestamp <> VNone -> get_child_value timestamp "Year" = VNone ->
   location_last_updated_at tz state = inl TypeError).
Proof.
  intros run timestamp latitude longitude Hlat Hto.
  subst run timestamp latitude longitude. split; [| split].
  - intros Hts y mo d h mi s t Ey Emo Ed Eh Emi Es Et. split.
    + revert Et. unfold datetime_new.
      destruct (negb _); [discriminate |].
      destruct (_ && _); [| discriminate]. now intros [= <-].
    + apply location_written; [exact Hlat | exact Hto |].
      unfold location_last_updated_at. cbv zeta.
      rewrite (is_None_false _ Hts). cbn [negb].
      rewrite Ey, Emo, Ed, Eh, Emi, Es. cbn [ebind]. now rewrite Et.
  - intros e Ee.
    destruct (pass_stops_clean 55 _ e now tz state self eq_refl Hto) as (Hout & Hkeep).
    { intros s. unfold stmt_location. rewrite Hlat.
      unfold call, bind, lift. now rewrite Ee. }
    split; [exact Hout |].
    unfold location_of. now rewrite !Hkeep by reflexivity.
  - intros Hts Hy. unfold location_last_updated_at. cbv zeta.
    rewrite (is_None_false _ Hts), Hy. reflexivity.
Qed.

(** *** Lines 240-247: the geocode *)

(** X13. The geocode reads back as it was set, (name, address) in that
    order, the setter changes no other attribute, and a pass of
    [update_ccs2], whether it returns or raises, leaves the geocode
    alone. *)
Theorem geocode_is_read_back
    (now : tzinfo -> datetime) (tz : tzinfo) (state : value) (self : Vehicle)
    (name address : value) :
  let named := state_of (geocode_setter (name, address) self) in
  let after := state_of (update_ccs2 now tz state named) in
  Get.geocode named = (named, inr (name, address)) /\
  Get.geocode after = (after, inr (name, address)) /\
  (forall a, a <> "_geocode_name" -> a <> "_geocode_address" ->
             getattr named a = getattr self a).
Proof.
  intros named after.
  assert (getattr named "_geocode_name" = name /\ getattr named "_geocode_address" = address)
    as (En & Ea) by (split; reflexivity).
  split; [| split].
  - unfold Get.geocode, bind, read, ret. now rewrite En, Ea.
  - unfold Get.geocode, bind, read, ret. subst after.
    rewrite (pass_keeps "_geocode_name" now tz state eq_refl named).
    rewrite (pass_keeps "_geocode_address" now tz state eq_refl named).
    now rewrite En, Ea.
  - intros a Hn Ha. subst named. unfold geocode_setter, bind, write, state_of.
    cbn [fst snd]. now rewrite !getattr_setattr_other by congruence.
Qed.

(** *** Lines 427-694: what the pass reads of the snapshot *)

(** X14. The pass reads nothing of the snapshot it updates but the
    engine type (the doors and the total range it reads back are the
    ones it has just written): on two snapshots with the same engine
    type it ends the same way, and every attribute on which the two
    agreed before the pass is one on which they agree after it. *)
Theorem pass_reads_only_the_engine_type
    (now : tzinfo -> datetime) (tz : tzinfo) (state : value) (s1 s2 : Vehicle) :
  getattr s1 "engine_type" = getattr s2 "engine_type" ->
  snd (update_ccs2 now tz state s1) = snd (update_ccs2 now tz state s2) /\
  (forall a, getattr s1 a = getattr s2 a ->
             getattr (state_of (update_ccs2 now tz state s1)) a
             = getattr (state_of (update_ccs2 now tz state s2)) a).
Proof.
  intros He. destruct (pass_determined now tz state) as (g & _ & Hc).
  rewrite (Hc s1), (Hc s2), He. split; [reflexivity |].
  intros a Ha. unfold state_of. cbn [fst]. rewrite !apply_writes_spec.
  now destruct (last_write a (fst (g (getattr s2 "engine_type")))).
Qed.

(** *** Lines 249-425: setting and reading back *)

Ltac pick_getter Hg :=
  repeat (let H := fresh in
          destruct Hg as [H | Hg];
          [first [discriminate H | injection H as <-; reflexivity] |]);
  destruct Hg.

(** X15. Each of the thirteen properties that pair a value with a unit
    reads back what was set: after [p = (v, u)] the getter of [p]
    answers [v] (the odometer's answers [get_float(v)]) and the unit
    getter, where the property has one, answers [u]. When [get_float]
    raises, setting the odometer raises and changes nothing. *)
Theorem setters_read_back
    (p : string) (setter : value * value -> M unit) (v u : value) (self : Vehicle) :
  In (p, setter) composites ->
  let set := state_of (setter (v, u) self) in
  (forall x, stored_value p v = inr x ->
     (forall getter, In (p, getter) value_getters ->
                     (setter (v, u) ;; getter) self = (set, inr x)) /\
     (forall getter, In (p, getter) unit_getters ->
                     (setter (v, u) ;; getter) self = (set, inr u))) /\
  (forall e, stored_value p v = inl e -> setter (v, u) self = (self, inl e)).
Proof.
  intros Hin set. subst set. cbn [composites In] in Hin.
  repeat (destruct Hin as [H | Hin];
          [injection H as <- <-; split;
           [intros x Ex; unfold stored_value in Ex; cbn [String.eqb Ascii.eqb Bool.eqb] in Ex;
            first [injection Ex as <- | idtac];
            split; intros getter Hg;
            [cbn [value_getters In] in Hg | cbn [unit_getters In] in Hg];
            run_step; rewrite ?Ex; pick_getter Hg
           |intros e Ee; unfold stored_value in Ee;
            cbn [String.eqb Ascii.eqb Bool.eqb] in Ee;
            first [discriminate Ee | run_step; rewrite Ee; reflexivity]] |]).
  destruct Hin.
Qed.

End Further.

(* ===================================================================== *)
(** ** More runs                                                           *)
(* ===================================================================== *)

Section FurtherRuns.
Import Sample.

(** A run of [update_ccs2_leaves_the_other_fields]: the charging flag
    and the engine type of the snapshot come through a pass that returns
    and one that raises. *)
Lemma update_ccs2_leaves_the_other_fields_witness :
  getattr (state_of (update_ccs2 clock1 berlin status_ok
                       (setattr earlier "ev_battery_is_charging" (VBool true))))
    "ev_battery_is_charging" = VBool true /\
  getattr (state_of (update_ccs2 clock1 berlin status_no_total earlier)) "engine_type"
  = VEnum EV.
Proof.
  split.
  - rewrite (proj1 (proj2 (update_ccs2_leaves_the_other_fields clock1 berlin status_ok
                             (setattr earlier "ev_battery_is_charging" (VBool true))))).
    + reflexivity.
    + vm_compute. tauto.
  - rewrite (proj1 (update_ccs2_leaves_the_other_fields clock1 berlin status_no_total
                      earlier)).
    + reflexivity.
    + vm_compute. intuition discriminate.
Defined.

(** Runs of [data_is_stored_last]: a pass that returns stores its
    document, and one that raises on the next document leaves the first
    in [data]. *)
Lemma data_is_stored_last_witness :
  getattr (state_of (update_ccs2 clock1 berlin status_ok earlier)) "data" = status_ok /\
  getattr (state_of (update_ccs2 clock2 berlin status_no_total
                       (state_of (update_ccs2 clock1 berlin status_ok earlier)))) "data"
  = status_ok.
Proof.
  split.
  - apply (proj1 (data_is_stored_last clock1 berlin status_ok earlier)).
    exists tt. vm_compute. reflexivity.
  - rewrite (proj2 (data_is_stored_last clock2 berlin status_no_total
                      (state_of (update_ccs2 clock1 berlin status_ok earlier)))).
    + vm_compute. reflexivity.
    + exists TypeError. vm_compute. reflexivity.
Defined.


(** A run of [failed_total_range_stops_the_pass]: without DTE.Total the
    pass raises [TypeError] and the location is the earlier one, though
    the document has a fix. *)
Lemma failed_total_range_stops_the_pass_witness :
  get_child_value status_no_total "Location.GeoCoord.Latitude"
  = VFloat (float_lit 105 (-1)) /\
  snd (update_ccs2 clock1 berlin status_no_total earlier) = inl TypeError /\
  location_of (state_of (update_ccs2 clock1 berlin status_no_total earlier))
  = (VFloat (float_lit 97 (-1)), VFloat (float_lit 22 (-1)),
     VDatetime (mk_datetime 2024 5 16 8 0 0 berlin)) /\
  getattr (state_of (update_ccs2 clock1 berlin status_no_total earlier)) "data" = VNone.
Proof.
  split; [vm_compute; reflexivity |].
  destruct (failed_total_range_stops_the_pass clock1 berlin status_no_total earlier
              TypeError) as (Hout & _ & _ & Hloc & Hdata).
  - vm_compute. reflexivity.
  - exists tt. vm_compute. reflexivity.
  - split; [exact Hout | split].
    + rewrite Hloc. reflexivity.
    + rewrite Hdata. reflexivity.
Defined.

(** Runs of [last_updated_at_from_date_or_clock]: a document without a
    Date, one with a Date, and one with a Date that cannot be read. *)
Lemma last_updated_at_from_date_or_clock_witness :
  getattr (state_of (update_ccs2 clock1 berlin status_no_date earlier)) "last_updated_at"
  = VDatetime (mk_datetime 2024 5 17 10 0 0 berlin) /\
  getattr (state_of (update_ccs2 clock1 berlin status_ok earlier)) "last_updated_at"
  = VDatetime (mk_datetime 2024 5 17 9 30 0 berlin) /\
  update_ccs2 clock1 berlin status_bad_date earlier = (earlier, inl ValueError).
Proof.
  split; [| split].
  - apply (proj1 (last_updated_at_from_date_or_clock clock1 berlin status_no_date earlier)).
    vm_compute. reflexivity.
  - apply (proj1 (proj2 (last_updated_at_from_date_or_clock clock1 berlin status_ok
                           earlier))); vm_compute; reflexivity.
  - apply (proj2 (proj2 (last_updated_at_from_date_or_clock clock1 berlin status_bad_date
                           earlier))); vm_compute; reflexivity.
Defined.

(** Runs of [odometer_in_the_first_distance_unit]: the document names
    miles (unit 2) and the odometer is stored in km; a reading that is
    no number leaves the odometer of the pass before. *)
Lemma odometer_in_the_first_distance_unit_witness :
  get_child_value status_ev "Drivetrain.FuelSystem.DTE.Unit" = VInt 2 /\
  composite_of (state_of (update_ccs2 clock1 berlin status_ev earlier)) "_odometer"
  = (VFloat (float_lit 12345 0), VStr "km", VFloat (float_lit 12345 0)) /\
  snd (update_ccs2 clock2 berlin status_bad_odometer
         (state_of (update_ccs2 clock1 berlin status_ev earlier))) = inl ValueError /\
  composite_of (state_of (update_ccs2 clock2 berlin status_bad_odometer
                            (state_of (update_ccs2 clock1 berlin status_ev earlier))))
    "_odometer"
  = (VFloat (float_lit 12345 0), VStr "km", VFloat (float_lit 12345 0)).
Proof.
  split; [vm_compute; reflexivity |].
  assert (composite_of (state_of (update_ccs2 clock1 berlin status_ev earlier)) "_odometer"
          = (VFloat (float_lit 12345 0), VStr "km", VFloat (float_lit 12345 0))) as E.
  { apply (proj1 (odometer_in_the_first_distance_unit clock1 berlin status_ev earlier)).
    - vm_compute. reflexivity.
    - vm_compute. reflexivity.
    - exists tt. vm_compute. reflexivity. }
  split; [exact E | split; [vm_compute; reflexivity |]].
  assert (get_float (get_child_value status_bad_odometer "Drivetrain.Odometer")
          = inl ValueError) as Hbad by (vm_compute; reflexivity).
  rewrite (proj2 (proj2 (odometer_in_the_first_distance_unit clock2 berlin
                           status_bad_odometer
                           (state_of (update_ccs2 clock1 berlin status_ev earlier)))
                    ValueError Hbad)).
  exact E.
Defined.

(** A run of [ranges_share_the_unit_of_the_document]: 400, 320 and 360
    miles. *)
Lemma ranges_share_the_unit_of_the_document_witness :
  exists unit,
    unit = VStr "mi" /\
    composite_of (state_of (update_ccs2 clock1 berlin status_ev earlier))
      "_total_driving_range" = (VFloat (float_lit 400 0), unit, VFloat (float_lit 400 0)) /\
    composite_of (state_of (update_ccs2 clock1 berlin status_ev earlier))
      "_ev_target_range_charge_AC" = (VInt 320, unit, VInt 320) /\
    composite_of (state_of (update_ccs2 clock1 berlin status_ev earlier))
      "_ev_target_range_charge_DC" = (VInt 360, unit, VInt 360).
Proof.
  destruct (ranges_share_the_unit_of_the_document clock1 berlin status_ev earlier)
    as (total & unit & Etotal & Eunit & Hrange & Htarget).
  { exists tt. vm_compute. reflexivity. }
  exists unit.
  assert (unit = VStr "mi") as Hu
    by (vm_compute in Eunit; injection Eunit as Eunit; now symmetry).
  assert (total = VFloat (float_lit 400 0)) as Ht
    by (vm_compute in Etotal; injection Etotal as Etotal; now symmetry).
  split; [exact Hu | split; [| split]].
  - rewrite Hrange, Ht. reflexivity.
  - rewrite (Htarget _ _ (or_introl eq_refl)). vm_compute. reflexivity.
  - rewrite (Htarget _ _ (or_intror (or_introl eq_refl))). vm_compute. reflexivity.
Defined.

(** Runs of [charge_durations_in_minutes]: 95 minutes of charging left,
    and no estimate for the portable charger. *)
Lemma charge_durations_in_minutes_witness :
  composite_of (state_of (update_ccs2 clock1 berlin status_ev earlier))
    "_ev_estimated_current_charge_duration" = (VInt 95, VStr "m", VInt 95) /\
  composite_of (state_of (update_ccs2 clock1 berlin status_ev earlier))
    "_ev_estimated_portable_charge_duration" = (VNone, VStr "m", VNone).
Proof.
  split.
  - rewrite (charge_durations_in_minutes clock1 berlin status_ev earlier
               "Green.ChargingInformation.Charging.RemainTime"
               "_ev_estimated_current_charge_duration").
    + vm_compute. reflexivity.
    + now left.
    + exists tt. vm_compute. reflexivity.
  - rewrite (charge_durations_in_minutes clock1 berlin status_ev earlier
               "Green.ChargingInformation.EstimatedTime.ICCB"
               "_ev_estimated_portable_charge_duration").
    + vm_compute. reflexivity.
    + right. right. now left.
    + exists tt. vm_compute. reflexivity.
Defined.

(** A run of [ev_range_kept_unless_pure_ev]: the snapshot of a hybrid
    with an EV range of 60 km; the pass stores a total range of 400 km
    and leaves the EV range. *)
Lemma ev_range_kept_unless_pure_ev_witness :
  composite_of
    (state_of (update_ccs2 clock1 berlin status_ok
                 (state_of (ev_driving_range_setter (VInt 60, VStr "km")
                              (setattr earlier "engine_type" (VEnum PHEV))))))
    "_ev_driving_range" = (VInt 60, VStr "km", VInt 60) /\
  composite_of (state_of (update_ccs2 clock1 berlin status_ok Vehicle_default))
    "_ev_driving_range" = (VNone, VNone, VNone).
Proof.
  split.
  - rewrite (proj1 (ev_range_kept_unless_pure_ev clock1 berlin status_ok
                      (state_of (ev_driving_range_setter (VInt 60, VStr "km")
                                   (setattr earlier "engine_type" (VEnum PHEV)))))).
    + reflexivity.
    + reflexivity.
  - exact (proj2 (proj2 (ev_range_kept_unless_pure_ev clock1 berlin status_ok
                           Vehicle_default))).
Defined.

(** A run of [plain_fields_hold_the_answer]: the blower at speed level 3
    and no key-fob reading. *)
Lemma plain_fields_hold_the_answer_witness :
  getattr (state_of (update_ccs2 clock1 berlin status_ev earlier)) "air_control_is_on"
  = VInt 3 /\
  getattr (state_of (update_ccs2 clock1 berlin status_ev earlier))
    "smart_key_battery_warning_is_on" = VBool false.
Proof.
  assert (returns (update_ccs2 clock1 berlin status_ev earlier)) as Hret
    by (exists tt; vm_compute; reflexivity).
  destruct (plain_fields_hold_the_answer clock1 berlin status_ev earlier) as (Hplain & Hbool).
  split.
  - rewrite (Hplain "Cabin.HVAC.Row1.Driver.Blower.SpeedLevel" "air_control_is_on").
    + vm_compute. reflexivity.
    + cbn [pass_through_fields In]. repeat first [left; reflexivity | right].
    + now apply returns_gets_to.
  - rewrite (Hbool "Electronics.FOB.LowBattery" "smart_key_battery_warning_is_on").
    + vm_compute. reflexivity.
    + cbn [coerced_fields In]. repeat first [left; reflexivity | right].
    + now apply returns_gets_to.
Defined.

(** Runs of [location_reads_longitude_first]: set to latitude 10.5 and
    longitude 13.4, by the setter and by the pass, [location] answers
    (13.4, 10.5). *)
Lemma location_reads_longitude_first_witness :
  snd ((location_setter (VFloat (float_lit 105 (-1)), VFloat (float_lit 134 (-1)), VNone) ;;
        Get.location) earlier)
  = inr (VFloat (float_lit 134 (-1)), VFloat (float_lit 105 (-1))) /\
  snd (Get.location (state_of (update_ccs2 clock1 berlin status_ev earlier)))
  = inr (VFloat (float_lit 134 (-1)), VFloat (float_lit 105 (-1))) /\
  snd (Get.location_latitude (state_of (update_ccs2 clock1 berlin status_ev earlier)))
  = inr (VFloat (float_lit 105 (-1))).
Proof.
  destruct (location_reads_longitude_first clock1 berlin status_ev earlier)
    as (Hset & Hpass).
  split.
  - rewrite (Hset (VFloat (float_lit 105 (-1))) (VFloat (float_lit 134 (-1))) VNone).
    reflexivity.
  - destruct (Hpass (VDatetime (mk_datetime 2024 5 17 9 29 58 berlin)))
      as (Hloc & Hlat & _ & _).
    + vm_compute. reflexivity.
    + vm_compute. reflexivity.
    + exists tt. vm_compute. reflexivity.
    + rewrite Hloc, Hlat. split; vm_compute; reflexivity.
Defined.

(** Runs of [fix_time_from_the_timestamp]: the fix of 09:29:58 on
    2024-05-17; a TimeStamp without a year, on which the pass raises
    [TypeError] and keeps the earlier location. *)
Lemma fix_time_from_the_timestamp_witness :
  location_of (state_of (update_ccs2 clock1 berlin status_ev earlier))
  = (VFloat (float_lit 105 (-1)), VFloat (float_lit 134 (-1)),
     VDatetime (mk_datetime 2024 5 17 9 29 58 berlin)) /\
  snd (update_ccs2 clock1 berlin status_fix_no_year earlier) = inl TypeError /\
  location_of (state_of (update_ccs2 clock1 berlin status_fix_no_year earlier))
  = (VFloat (float_lit 97 (-1)), VFloat (float_lit 22 (-1)),
     VDatetime (mk_datetime 2024 5 16 8 0 0 berlin)) /\
  snd (update_ccs2 clock1 berlin status_fix_april_31 earlier) = inl ValueError.
Proof.
  split; [| split; [| split]].
  - destruct (fix_time_from_the_timestamp clock1 berlin status_ev earlier)
      as (Hbuilt & _ & _).
    + vm_compute. reflexivity.
    + exists tt. vm_compute. reflexivity.
    + destruct (Hbuilt ltac:(vm_compute; discriminate) 2024 5 17 9 29 58
                  (mk_datetime 2024 5 17 9 29 58 berlin)
                  eq_refl eq_refl eq_refl eq_refl eq_refl eq_refl eq_refl) as (_ & E).
      rewrite E. vm_compute. reflexivity.
  - destruct (fix_time_from_the_timestamp clock1 berlin status_fix_no_year earlier)
      as (_ & Hfail & Hyear).
    + vm_compute. reflexivity.
    + exists tt. vm_compute. reflexivity.
    + apply (Hfail TypeError). apply Hyear; vm_compute; [discriminate | reflexivity].
  - destruct (fix_time_from_the_timestamp clock1 berlin status_fix_no_year earlier)
      as (_ & Hfail & Hyear).
    + vm_compute. reflexivity.
    + exists tt. vm_compute. reflexivity.
    + rewrite (proj1 (proj2 (Hfail TypeError
                               (Hyear ltac:(vm_compute; discriminate) eq_refl)))).
      reflexivity.
  - destruct (fix_time_from_the_timestamp clock1 berlin status_fix_april_31 earlier)
      as (_ & Hfail & _).
    + vm_compute. reflexivity.
    + exists tt. vm_compute. reflexivity.
    + apply (Hfail ValueError). vm_compute. reflexivity.
Defined.

(** A run of [geocode_is_read_back]: the geocode set before a pass is
    read back after it. *)
Lemma geocode_is_read_back_witness :
  snd (Get.geocode
         (state_of (update_ccs2 clock1 berlin status_ok
                      (state_of (geocode_setter (VStr "Home", VStr "1 Main Street")
                                   earlier)))))
  = inr (VStr "Home", VStr "1 Main Street").
Proof.
  rewrite (proj1 (proj2 (geocode_is_read_back clock1 berlin status_ok earlier
                           (VStr "Home") (VStr "1 Main Street")))).
  reflexivity.
Defined.

(** A run of [pass_reads_only_the_engine_type]: the snapshot of the
    earlier pass and a fresh one of the same engine type. *)
Lemma pass_reads_only_the_engine_type_witness :
  snd (update_ccs2 clock1 berlin status_ok earlier)
  = snd (update_ccs2 clock1 berlin status_ok
           (setattr Vehicle_default "engine_type" (VEnum EV))) /\
  getattr (state_of (update_ccs2 clock1 berlin status_ok earlier)) "is_locked"
  = getattr (state_of (update_ccs2 clock1 berlin status_ok
                         (setattr Vehicle_default "engine_type" (VEnum EV)))) "is_locked".
Proof.
  destruct (pass_reads_only_the_engine_type clock1 berlin status_ok earlier
              (setattr Vehicle_default "engine_type" (VEnum EV)) eq_refl) as (Hout & Hattr).
  split; [exact Hout | apply Hattr; reflexivity].
Defined.

(** Runs of [setters_read_back]: the odometer set to the int 12345 reads
    12345.0 km, and set to a text it raises and stays as it was. *)
Lemma setters_read_back_witness :
  snd ((odometer_setter (VInt 12345, VStr "km") ;; Get.odometer) earlier)
  = inr (VFloat (float_lit 12345 0)) /\
  snd ((odometer_setter (VInt 12345, VStr "km") ;; Get.odometer_unit) earlier)
  = inr (VStr "km") /\
  odometer_setter (VStr "n/a", VStr "km") earlier = (earlier, inl ValueError).
Proof.
  assert (In ("_odometer", odometer_setter) composites) as Hin by now left.
  assert (stored_value "_odometer" (VInt 12345) = inr (VFloat (float_lit 12345 0))) as Ev
    by (vm_compute; reflexivity).
  assert (stored_value "_odometer" (VStr "n/a") = inl ValueError) as Ee
    by (vm_compute; reflexivity).
  split; [| split].
  - rewrite (proj1 (proj1 (setters_read_back "_odometer" odometer_setter
                             (VInt 12345) (VStr "km") earlier Hin) _ Ev)
               Get.odometer (or_introl eq_refl)).
    reflexivity.
  - rewrite (proj2 (proj1 (setters_read_back "_odometer" odometer_setter
                             (VInt 12345) (VStr "km") earlier Hin) _ Ev)
               Get.odometer_unit (or_introl eq_refl)).
    reflexivity.
  - exact (proj2 (setters_read_back "_odometer" odometer_setter
                    (VStr "n/a") (VStr "km") earlier Hin) _ Ee).
Defined.

End FurtherRuns.
